(** * GitBook downloader: change detection and de-duplication core

    A shallow embedding of [convert_gitbook_to_html.py] and the proofs
    of its specified properties.

    Conventions of the embedding.
    - A Python [str] is a [string]; its characters are the code points
      0..255 (the Latin-1 range), which is what [ascii] can hold.
    - [re.sub] is modelled by a small backtracking matcher that lists the
      possible match lengths at a position in the priority order of the
      [re] module; the first one is the match that [re] reports.
    - Dictionaries are [gmap]s, the output directory is a map from file
      names to file nodes, and the effects of a call (requests, reads,
      writes) are recorded in an event log carried by the state. *)

From Stdlib Require Import ZArith NArith Ascii String List Bool Lia.
From stdpp Require Import gmap strings list.

Local Open Scope string_scope.
Local Open Scope list_scope.

(** ** Characters *)

Module Chars.

Definition code (c : ascii) : nat := nat_of_ascii c.

Definition in_range (lo hi : nat) (c : ascii) : bool :=
  (lo <=? code c)%nat && (code c <=? hi)%nat.

Definition is_digit (c : ascii) : bool := in_range 48 57 c.
Definition is_ascii_upper (c : ascii) : bool := in_range 65 90 c.
Definition is_ascii_lower (c : ascii) : bool := in_range 97 122 c.

(** [str.isspace] on code points below 256; [\s] of [re] and
    [str.strip()] use the same predicate. *)
Definition is_space (c : ascii) : bool :=
  in_range 9 13 c || in_range 28 32 c
  || (code c =? 133)%nat || (code c =? 160)%nat.

(** Alphanumeric code points of Latin-1 above 127, after
    [str.isalnum]: the letters, and the digits and fractions
    [² ³ ¹ ¼ ½ ¾]. *)
Definition is_latin1_alnum (c : ascii) : bool :=
  (code c =? 170)%nat || (code c =? 181)%nat || (code c =? 186)%nat
  || in_range 178 179 c || (code c =? 185)%nat || in_range 188 190 c
  || in_range 192 214 c || in_range 216 246 c || in_range 248 255 c.

(** [\w] of [re] on a [str] pattern. *)
Definition is_word (c : ascii) : bool :=
  is_digit c || is_ascii_upper c || is_ascii_lower c
  || (code c =? 95)%nat || is_latin1_alnum c.

(** [[a-f0-9]] *)
Definition is_hex (c : ascii) : bool := is_digit c || in_range 97 102 c.

(** Upper-case letters of Latin-1 above 127: [À]..[Þ] without [×]. *)
Definition is_latin1_upper (c : ascii) : bool :=
  in_range 192 214 c || in_range 216 222 c.

(** [str.lower] on one code point below 256. *)
Definition lower (c : ascii) : ascii :=
  if is_ascii_upper c || is_latin1_upper c
  then ascii_of_nat (code c + 32) else c.

End Chars.

(** ** A backtracking matcher for the patterns of the normalizer *)

Module Re.

Import Chars.

Inductive regex : Type :=
| Eps                                   (* the empty pattern *)
| Chr (c : ascii)                       (* a literal character *)
| Cls (p : ascii -> bool)               (* a character class *)
| Seq (a b : regex)                     (* ab *)
| Alt (a b : regex)                     (* a|b *)
| Star (greedy : bool) (r : regex)      (* r* and r*? *)
| Bnd                                   (* \b *)
| NotAhead (r : regex).                 (* (?!r) *)

Infix "~>" := Seq (at level 62, right associativity).

(** Derived forms. *)
Definition Opt (r : regex) : regex := Alt r Eps.            (* r? *)
Definition Plus (r : regex) : regex := r ~> Star true r.    (* r+ *)

Fixpoint Rep (n : nat) (r : regex) : regex :=               (* r{n} *)
  match n with
  | O => Eps
  | S k => r ~> Rep k r
  end.

Fixpoint Lit (s : string) : regex :=                        (* a literal text *)
  match s with
  | EmptyString => Eps
  | String c t => Chr c ~> Lit t
  end.

Definition any_of (s : string) (c : ascii) : bool :=
  existsb (Ascii.eqb c) (list_ascii_of_string s).
Definition none_of (s : string) (c : ascii) : bool := negb (any_of s c).

(** The character before offset [n] of [s], where [prev] is the one
    before [s] itself. *)
Definition before (prev : option ascii) (s : list ascii) (n : nat)
  : option ascii :=
  match n with
  | O => prev
  | S k => match s !! k with Some c => Some c | None => prev end
  end.

Definition wordy (o : option ascii) : bool :=
  match o with Some c => is_word c | None => false end.

(** The loop of [r*] (greedy) and [r*?] (lazy), given the matcher of its
    body: one more iteration is tried before leaving the loop when greedy,
    after it when lazy.  Only iterations that consume input are repeated,
    so the length of the text bounds their number. *)
Fixpoint star_loop (body : option ascii -> list ascii -> list nat)
         (greedy : bool) (fuel : nat) (prev : option ascii) (s : list ascii)
  : list nat :=
  match fuel with
  | O => [0]
  | S fuel' =>
      let more :=
        flat_map
          (fun n =>
             match n with
             | O => []
             | S _ => map (Nat.add n)
                          (star_loop body greedy fuel' (before prev s n)
                                     (drop n s))
             end)
          (body prev s) in
      if greedy then more ++ [0] else 0 :: more
  end.

(** [run r prev s] lists the lengths [n] such that [r] matches the first
    [n] characters of [s], in the order in which a backtracking matcher
    finds them; [prev] is the character before [s]. *)
Fixpoint run (r : regex) (prev : option ascii) (s : list ascii) : list nat :=
  match r with
  | Eps => [0]
  | Chr c =>
      match s with
      | x :: _ => if Ascii.eqb x c then [1] else []
      | [] => []
      end
  | Cls p =>
      match s with
      | x :: _ => if p x then [1] else []
      | [] => []
      end
  | Seq a b =>
      flat_map (fun n => map (Nat.add n) (run b (before prev s n) (drop n s)))
               (run a prev s)
  | Alt a b => run a prev s ++ run b prev s
  | Star greedy body => star_loop (run body) greedy (length s) prev s
  | Bnd => if xorb (wordy prev) (wordy (head s)) then [0] else []
  | NotAhead a =>
      match run a prev s with
      | [] => [0]
      | _ :: _ => []
      end
  end.

(** What replaces a match: a fixed text, or the text of group 1. *)
Inductive replacement : Type :=
| Text (s : string)
| Group1.

(** A substitution rule for the pattern [(group)rest]. *)
Record rule : Type := Rule {
  group : regex;
  rest : regex;
  repl : replacement
}.

Definition remove (r : regex) : rule := Rule Eps r (Text "").

(** The matches of a rule at a position: the length of group 1 and the
    length of the whole match. *)
Definition candidates (ru : rule) (prev : option ascii) (s : list ascii)
  : list (nat * nat) :=
  flat_map
    (fun g => map (fun n => (g, g + n))
                  (run (rest ru) (before prev s g) (drop g s)))
    (run (group ru) prev s).

Definition first_match (ru : rule) (prev : option ascii) (s : list ascii)
  : option (nat * nat) :=
  head (candidates ru prev s).

Definition expand (rp : replacement) (grp : list ascii) : list ascii :=
  match rp with
  | Text s => list_ascii_of_string s
  | Group1 => grp
  end.

(** [re.sub] for a pattern that does not match the empty text: scan from
    the left; at a match, emit the replacement and skip the matched
    characters. *)
Fixpoint sub_from (ru : rule) (skip : nat) (prev : option ascii)
         (s : list ascii) : list ascii :=
  match s with
  | [] => []
  | c :: t =>
      match skip with
      | S k => sub_from ru k (Some c) t
      | O =>
          match first_match ru prev s with
          | Some (g, S k) =>
              expand (repl ru) (take g s) ++ sub_from ru k (Some c) t
          | _ => c :: sub_from ru 0 (Some c) t
          end
      end
  end.

Definition sub (ru : rule) (s : list ascii) : list ascii :=
  sub_from ru 0 None s.

(** Does the pattern match somewhere in [s]? *)
Fixpoint search_from (ru : rule) (prev : option ascii) (s : list ascii)
  : bool :=
  match s with
  | [] => false
  | c :: t =>
      match first_match ru prev s with
      | Some (_, S _) => true
      | _ => search_from ru (Some c) t
      end
  end.

Definition search (ru : rule) (s : list ascii) : bool :=
  search_from ru None s.

End Re.

(** ** Content normalizer: [clean_html_for_comparison]

    The patterns of the source are quoted in the comments with the
    double quote written [\x22]. *)

Module Normalizer.

Import Chars Re.

Definition dquote : ascii := "034"%char.
Definition squote : ascii := "'"%char.
Definition newline : ascii := "010"%char.

Definition digit : regex := Cls is_digit.                (* \d *)
Definition word : regex := Cls is_word.                  (* \w *)
Definition space : regex := Cls is_space.                (* \s *)
Definition hex : regex := Cls is_hex.                    (* [a-f0-9] *)
Definition anything : regex := Cls (fun _ => true).      (* [\s\S] *)
Definition dot : regex :=                                (* . *)
  Cls (fun c => negb (Ascii.eqb c newline)).
Definition is_quote (c : ascii) : bool :=
  Ascii.eqb c dquote || Ascii.eqb c squote.
Definition quote : regex := Cls is_quote.                (* [\x22\'] *)
Definition unquoted : regex :=                           (* [^\x22\'] *)
  Cls (fun c => negb (is_quote c)).
Definition not_lt : regex := Cls (none_of "<").          (* [^<] *)
Definition not_gt : regex := Cls (none_of ">").          (* [^>] *)

(** <script\b [^<]* (?: (?!<\/script>) <[^<]* )* <\/script> (the blanks
    only separate the parts here), and the same for style. *)
Definition block (name : string) : regex :=
  Lit ("<" ++ name) ~> Bnd ~> Star true not_lt
  ~> Star true (NotAhead (Lit ("</" ++ name ++ ">"))
                ~> Chr "<" ~> Star true not_lt)
  ~> Lit ("</" ++ name ++ ">").

(** <!--[\s\S]*?--> *)
Definition comment : regex := Lit "<!--" ~> Star false anything ~> Lit "-->".

(** <meta\b[^>]*> *)
Definition meta : regex := Lit "<meta" ~> Bnd ~> Star true not_gt ~> Chr ">".

(** =[\x22\'][^\x22\']*[\x22\'] *)
Definition quoted_value : regex :=
  Chr "=" ~> quote ~> Star true unquoted ~> quote.

(** \s(data-\w+|id|class|style|aria-\w+|role)=[\x22\'][^\x22\']*[\x22\'] *)
Definition dynamic_attr : regex :=
  space
  ~> Alt (Lit "data-" ~> Plus word)
      (Alt (Lit "id")
        (Alt (Lit "class")
          (Alt (Lit "style")
            (Alt (Lit "aria-" ~> Plus word) (Lit "role")))))
  ~> quoted_value.

Definition dash_or_slash : regex := Cls (any_of "-/").   (* [-/] *)
Definition clock : regex :=                              (* \d{2}:\d{2}:\d{2} *)
  Rep 2 digit ~> Chr ":" ~> Rep 2 digit ~> Chr ":" ~> Rep 2 digit.
Definition t_or_space : regex :=                         (* [t\s]? *)
  Opt (Cls (fun c => Ascii.eqb c "t" || is_space c)).

(** \b\d{4}[-/]\d{2}[-/]\d{2}[t\s]?\d{2}:\d{2}:\d{2} *)
Definition stamp_ymd : regex :=
  Bnd ~> Rep 4 digit ~> dash_or_slash ~> Rep 2 digit ~> dash_or_slash
  ~> Rep 2 digit ~> t_or_space ~> clock.

(** \b\d{2}[-/]\d{2}[-/]\d{4}[t\s]?\d{2}:\d{2}:\d{2} *)
Definition stamp_dmy : regex :=
  Bnd ~> Rep 2 digit ~> dash_or_slash ~> Rep 2 digit ~> dash_or_slash
  ~> Rep 4 digit ~> t_or_space ~> clock.

(** \b\d{2}:\d{2}:\d{2}.\d+z?\b *)
Definition stamp_time : regex :=
  Bnd ~> clock ~> dot ~> Plus digit ~> Opt (Chr "z") ~> Bnd.

(** v\d+\.\d+(\.\d+)? *)
Definition version : regex :=
  Chr "v" ~> Plus digit ~> Chr "." ~> Plus digit
  ~> Opt (Chr "." ~> Plus digit).

(** (https?://[^\x22\'&\s]+)\?[^\x22\'\s]+ , replaced by group 1 *)
Definition url_head : regex :=
  Lit "http" ~> Opt (Chr "s") ~> Lit "://"
  ~> Plus (Cls (fun c => negb (is_quote c || Ascii.eqb c "&" || is_space c))).
Definition url_query : regex :=
  Chr "?" ~> Plus (Cls (fun c => negb (is_quote c || is_space c))).

(** updated-at=[\x22\'][^\x22\']*[\x22\'] *)
Definition updated_at : regex := Lit "updated-at" ~> quoted_value.

(** gitbook-\w+=[\x22\'][^\x22\']*[\x22\'] *)
Definition gitbook_attr : regex := Lit "gitbook-" ~> Plus word ~> quoted_value.

(** data-\w+=[\'\x22][{\[].*?[}\]][\'\x22] *)
Definition json_attr : regex :=
  Lit "data-" ~> Plus word ~> Chr "=" ~> quote ~> Cls (any_of "{[")
  ~> Star false dot ~> Cls (any_of "}]") ~> quote.

(** [a-f0-9]{8}-[a-f0-9]{4}-[a-f0-9]{4}-[a-f0-9]{4}-[a-f0-9]{12} *)
Definition uuid : regex :=
  Rep 8 hex ~> Chr "-" ~> Rep 4 hex ~> Chr "-" ~> Rep 4 hex ~> Chr "-"
  ~> Rep 4 hex ~> Chr "-" ~> Rep 12 hex.

(** [a-f0-9]{32} *)
Definition hex32 : regex := Rep 32 hex.

(** <html\s+[^>]*> and <body\s+[^>]*> *)
Definition open_tag (name : string) : regex :=
  Lit ("<" ++ name) ~> Plus space ~> Star true not_gt ~> Chr ">".

(** \s+ *)
Definition spaces : rule := Rule Eps (Plus space) (Text " ").

(** The substitutions between the lower-casing and the whitespace step,
    in the order of the source. *)
Definition scrub_rules : list rule :=
  [ remove (block "script");
    remove (block "style");
    remove comment;
    remove meta;
    remove dynamic_attr;
    remove stamp_ymd;
    remove stamp_dmy;
    remove stamp_time;
    remove version;
    Rule url_head url_query Group1;
    remove updated_at;
    remove gitbook_attr;
    remove json_attr;
    remove uuid;
    remove hex32;
    Rule Eps (open_tag "html") (Text "<html>");
    Rule Eps (open_tag "body") (Text "<body>") ].

Definition scrub (s : list ascii) : list ascii :=
  fold_left (fun acc ru => sub ru acc) scrub_rules s.

(** [str.strip()] *)
Fixpoint lstrip (s : list ascii) : list ascii :=
  match s with
  | c :: t => if is_space c then lstrip t else s
  | [] => []
  end.

Fixpoint rstrip (s : list ascii) : list ascii :=
  match s with
  | c :: t =>
      match rstrip t with
      | [] => if is_space c then [] else [c]
      | kept => c :: kept
      end
  | [] => []
  end.

Definition strip (s : list ascii) : list ascii := rstrip (lstrip s).

(** [str.lower()] *)
Definition lowercase (s : list ascii) : list ascii := map lower s.

Definition clean_chars (s : list ascii) : list ascii :=
  strip (sub spaces (scrub (lowercase s))).

Definition clean_html_for_comparison (html_content : string) : string :=
  string_of_list_ascii (clean_chars (list_ascii_of_string html_content)).

End Normalizer.

(** ** [hashlib.md5(...).hexdigest()], after RFC 1321 *)

Module MD5.

Local Open Scope N_scope.

Definition mask32 : N := 0xFFFFFFFF.
Definition add32 (a b : N) : N := N.land (a + b) mask32.
Definition not32 (a : N) : N := N.lxor a mask32.
Definition rotl32 (x c : N) : N :=
  N.land (N.lor (N.shiftl x c) (N.shiftr x (32 - c))) mask32.

Definition K : list N :=
  [ 0xd76aa478; 0xe8c7b756; 0x242070db; 0xc1bdceee;
    0xf57c0faf; 0x4787c62a; 0xa8304613; 0xfd469501;
    0x698098d8; 0x8b44f7af; 0xffff5bb1; 0x895cd7be;
    0x6b901122; 0xfd987193; 0xa679438e; 0x49b40821;
    0xf61e2562; 0xc040b340; 0x265e5a51; 0xe9b6c7aa;
    0xd62f105d; 0x02441453; 0xd8a1e681; 0xe7d3fbc8;
    0x21e1cde6; 0xc33707d6; 0xf4d50d87; 0x455a14ed;
    0xa9e3e905; 0xfcefa3f8; 0x676f02d9; 0x8d2a4c8a;
    0xfffa3942; 0x8771f681; 0x6d9d6122; 0xfde5380c;
    0xa4beea44; 0x4bdecfa9; 0xf6bb4b60; 0xbebfbc70;
    0x289b7ec6; 0xeaa127fa; 0xd4ef3085; 0x04881d05;
    0xd9d4d039; 0xe6db99e5; 0x1fa27cf8; 0xc4ac5665;
    0xf4292244; 0x432aff97; 0xab9423a7; 0xfc93a039;
    0x655b59c3; 0x8f0ccc92; 0xffeff47d; 0x85845dd1;
    0x6fa87e4f; 0xfe2ce6e0; 0xa3014314; 0x4e0811a1;
    0xf7537e82; 0xbd3af235; 0x2ad7d2bb; 0xeb86d391 ].

Definition shifts : list N :=
  [ 7; 12; 17; 22; 7; 12; 17; 22; 7; 12; 17; 22; 7; 12; 17; 22;
    5; 9; 14; 20; 5; 9; 14; 20; 5; 9; 14; 20; 5; 9; 14; 20;
    4; 11; 16; 23; 4; 11; 16; 23; 4; 11; 16; 23; 4; 11; 16; 23;
    6; 10; 15; 21; 6; 10; 15; 21; 6; 10; 15; 21; 6; 10; 15; 21 ].

Definition words : Type := (N * N * N * N)%type.

Definition init : words := (0x67452301, 0xefcdab89, 0x98badcfe, 0x10325476).

(** One of the 64 operations on a block [m] of 16 words. *)
Definition step (m : list N) (st : words) (i : nat) : words :=
  let '(a, b, c, d) := st in
  let '(f, g) :=
    if (i <? 16)%nat then
      (N.lor (N.land b c) (N.land (not32 b) d), i)
    else if (i <? 32)%nat then
      (N.lor (N.land d b) (N.land (not32 d) c), ((5 * i + 1) mod 16)%nat)
    else if (i <? 48)%nat then
      (N.lxor (N.lxor b c) d, ((3 * i + 5) mod 16)%nat)
    else
      (N.lxor c (N.lor b (not32 d)), ((7 * i) mod 16)%nat) in
  let f' := add32 (add32 (add32 f a) (nth i K 0)) (nth g m 0) in
  (d, add32 b (rotl32 f' (nth i shifts 0)), b, c).

Definition compress (st : words) (m : list N) : words :=
  let '(a0, b0, c0, d0) := st in
  let '(a, b, c, d) := fold_left (step m) (seq 0 64) st in
  (add32 a0 a, add32 b0 b, add32 c0 c, add32 d0 d).

(** Little-endian bytes of a number, and back. *)
Fixpoint to_le (n : nat) (x : N) : list N :=
  match n with
  | O => []
  | S k => N.land x 0xFF :: to_le k (N.shiftr x 8)
  end.

Fixpoint of_le (bs : list N) : N :=
  match bs with
  | [] => 0
  | b :: t => b + 256 * of_le t
  end.

Fixpoint chunks (fuel size : nat) (bs : list N) : list (list N) :=
  match fuel with
  | O => []
  | S f =>
      match bs with
      | [] => []
      | _ :: _ => take size bs :: chunks f size (drop size bs)
      end
  end.

Definition pad (msg : list N) : list N :=
  let len := length msg in
  msg ++ [0x80] ++ repeat 0 ((119 - len mod 64) mod 64)%nat
      ++ to_le 8 (8 * N.of_nat len).

Definition blocks (msg : list N) : list (list N) :=
  map (fun blk => map of_le (chunks 16 4 blk))
      (let p := pad msg in chunks (length p) 64 p).

Definition hex_digit (x : N) : ascii :=
  if x <? 10 then ascii_of_N (48 + x) else ascii_of_N (87 + x).

Definition hex_byte (b : N) : list ascii :=
  [hex_digit (N.shiftr b 4); hex_digit (N.land b 0xF)].

Definition digest (msg : list N) : list N :=
  let '(a, b, c, d) := fold_left compress (blocks msg) init in
  to_le 4 a ++ to_le 4 b ++ to_le 4 c ++ to_le 4 d.

Definition hexdigest (msg : list N) : string :=
  string_of_list_ascii (flat_map hex_byte (digest msg)).

(** [str.encode('utf-8')] for code points below 256. *)
Definition utf8 (s : string) : list N :=
  flat_map
    (fun c => let x := N_of_ascii c in
              if x <? 128 then [x] else [192 + N.shiftr x 6; 128 + N.land x 63])
    (list_ascii_of_string s).

Definition md5_hex (s : string) : string := hexdigest (utf8 s).

End MD5.

(** ** Strings *)

Module Str.

(** [s.startswith(p)] *)
Definition startswith (p s : string) : bool := String.prefix p s.

(** [s[:n]] *)
Fixpoint first_n (n : nat) (s : string) : string :=
  match n, s with
  | S k, String c t => String c (first_n k t)
  | _, _ => EmptyString
  end.

(** [s[n:]] *)
Fixpoint from_n (n : nat) (s : string) : string :=
  match n, s with
  | S k, String _ t => from_n k t
  | _, _ => s
  end.

(** [s.lstrip(c)] for a single character [c] *)
Fixpoint lstrip_char (c : ascii) (s : string) : string :=
  match s with
  | String x t => if Ascii.eqb x c then lstrip_char c t else s
  | EmptyString => EmptyString
  end.

(** [s.replace(c, d)] for single characters *)
Fixpoint replace_char (c d : ascii) (s : string) : string :=
  match s with
  | String x t => String (if Ascii.eqb x c then d else x) (replace_char c d t)
  | EmptyString => EmptyString
  end.

(** [s.find(c)]: the first index holding one of the characters of
    [cs], if any. *)
Fixpoint find_any (cs : list ascii) (s : string) : option nat :=
  match s with
  | String x t =>
      if existsb (Ascii.eqb x) cs then Some O
      else option_map S (find_any cs t)
  | EmptyString => None
  end.

(** [s.split(c, 1)] when [c] occurs in [s] *)
Definition split_first (c : ascii) (s : string) : option (string * string) :=
  match find_any [c] s with
  | Some i => Some (first_n i s, from_n (S i) s)
  | None => None
  end.

(** [s.split(c)] *)
Fixpoint split (c : ascii) (s : string) : list string :=
  match s with
  | EmptyString => [EmptyString]
  | String x t =>
      if Ascii.eqb x c then EmptyString :: split c t
      else match split c t with
           | w :: ws => String x w :: ws
           | [] => [String x EmptyString]
           end
  end.

(** [c.join(parts)] *)
Fixpoint join (c : ascii) (parts : list string) : string :=
  match parts with
  | [] => EmptyString
  | [w] => w
  | w :: ws => w +:+ String c (join c ws)
  end.

(** [s.lower()] *)
Definition lower (s : string) : string :=
  string_of_list_ascii (map Chars.lower (list_ascii_of_string s)).

(** A non-empty string is the only [str] that is true in a condition. *)
Definition nonempty (s : string) : bool :=
  match s with
  | EmptyString => false
  | String _ _ => true
  end.

End Str.

(** ** [urllib.parse]: [urlparse], [urlunparse] and [urljoin]

    The functions follow the library for the schemes it lists; the
    checks that make it raise (a malformed bracketed host) and the removal
    of tab and line-break characters from a URL are left out. *)

Module Url.

Import Str.

Record parts : Type := Parts {
  scheme : string;
  netloc : string;
  path : string;
  params : string;
  query : string;
  fragment : string
}.

Definition uses_relative : list string :=
  [ ""; "ftp"; "http"; "gopher"; "nntp"; "imap"; "wais"; "file"; "https";
    "shttp"; "mms"; "prospero"; "rtsp"; "rtsps"; "rtspu"; "sftp"; "svn";
    "svn+ssh"; "ws"; "wss" ].

Definition uses_netloc : list string :=
  [ ""; "ftp"; "http"; "gopher"; "nntp"; "telnet"; "imap"; "wais"; "file";
    "mms"; "https"; "shttp"; "snews"; "prospero"; "rtsp"; "rtsps"; "rtspu";
    "rsync"; "svn"; "svn+ssh"; "sftp"; "nfs"; "git"; "git+ssh"; "ws"; "wss" ].

Definition uses_params : list string :=
  [ ""; "ftp"; "hdl"; "prospero"; "http"; "imap"; "https"; "shttp"; "rtsp";
    "rtsps"; "rtspu"; "sip"; "sips"; "mms"; "sftp"; "tel" ].

Definition mem (s : string) (l : list string) : bool :=
  existsb (String.eqb s) l.

Definition is_alpha (c : ascii) : bool :=
  Chars.is_ascii_upper c || Chars.is_ascii_lower c.

(** The characters of a scheme: letters, digits, [+], [-] and [.]. *)
Definition is_scheme_char (c : ascii) : bool :=
  is_alpha c || Chars.is_digit c || Re.any_of "+-." c.

(** The scheme of [url], when it has one, and what follows its colon. *)
Definition split_scheme (url : string) : option (string * string) :=
  match url with
  | String c _ =>
      if is_alpha c then
        match split_first ":" url with
        | Some (s, rest) =>
            if forallb is_scheme_char (list_ascii_of_string s)
            then Some (lower s, rest) else None
        | None => None
        end
      else None
  | EmptyString => None
  end.

(** [_splitnetloc(url, 2)]: the text between the two slashes and the
    next [/], [?] or [#]. *)
Definition split_netloc (url : string) : string * string :=
  let after := from_n 2 url in
  match find_any ["/"; "?"; "#"]%char after with
  | Some i => (first_n i after, from_n i after)
  | None => (after, EmptyString)
  end.

Definition rfind_slash (s : string) : option nat :=
  let fix go (i : nat) (s : string) (last : option nat) : option nat :=
    match s with
    | EmptyString => last
    | String x t => go (S i) t (if Ascii.eqb x "/" then Some i else last)
    end in
  go O s None.

(** [_splitparams] *)
Definition split_params (url : string) : string * string :=
  let start := match rfind_slash url with Some i => i | None => O end in
  match find_any [";"%char] (from_n start url) with
  | Some j => (first_n (start + j) url, from_n (S (start + j)) url)
  | None => (url, EmptyString)
  end.

(** [urlparse(url, scheme)] *)
Definition urlparse (url default_scheme : string) : parts :=
  let '(sch, url) :=
    match split_scheme url with
    | Some (s, rest) => (s, rest)
    | None => (default_scheme, url)
    end in
  let '(net, url) :=
    if startswith "//" url then split_netloc url else (EmptyString, url) in
  let '(url, frag) :=
    match split_first "#" url with
    | Some (u, f) => (u, f)
    | None => (url, EmptyString)
    end in
  let '(url, qry) :=
    match split_first "?" url with
    | Some (u, q) => (u, q)
    | None => (url, EmptyString)
    end in
  let '(url, prm) :=
    if mem sch uses_params then split_params url else (url, EmptyString) in
  Parts sch net url prm qry frag.

(** [urlunparse] *)
Definition urlunparse (p : parts) : string :=
  let url := if nonempty (params p) then path p +:+ ";" +:+ params p
             else path p in
  let url :=
    if nonempty (netloc p)
       || (nonempty (scheme p) && mem (scheme p) uses_netloc
           && negb (startswith "//" url))
    then "//" +:+ netloc p
         +:+ (if nonempty url && negb (startswith "/" url)
             then "/" +:+ url else url)
    else url in
  let url := if nonempty (scheme p) then scheme p +:+ ":" +:+ url else url in
  let url := if nonempty (query p) then url +:+ "?" +:+ query p else url in
  if nonempty (fragment p) then url +:+ "#" +:+ fragment p else url.

(** The loop of [urljoin] that resolves [.] and [..]. *)
Fixpoint resolve (segments resolved : list string) : list string :=
  match segments with
  | [] => resolved
  | seg :: more =>
      if String.eqb seg ".." then resolve more (removelast resolved)
      else if String.eqb seg "." then resolve more resolved
      else resolve more (resolved ++ [seg])
  end.

(** [segments[1:-1] = filter(None, segments[1:-1])] *)
Definition drop_empty_inner (segments : list string) : list string :=
  match segments with
  | [] => []
  | first :: more =>
      first :: filter (fun w => nonempty w = true) (removelast more)
            ++ match List.last more EmptyString, more with
               | _, [] => []
               | z, _ :: _ => [z]
               end
  end.

(** [urljoin(base, url)] *)
Definition urljoin (base url : string) : string :=
  if negb (nonempty base) then url
  else if negb (nonempty url) then base
  else
    let b := urlparse base "" in
    let u := urlparse url (scheme b) in
    if negb (String.eqb (scheme u) (scheme b))
       || negb (mem (scheme u) uses_relative)
    then url
    else if mem (scheme u) uses_netloc && nonempty (netloc u)
    then urlunparse u
    else
      let net := if mem (scheme u) uses_netloc then netloc b else netloc u in
      if negb (nonempty (path u)) && negb (nonempty (params u)) then
        urlunparse
          (Parts (scheme u) net (path b) (params b)
                 (if nonempty (query u) then query u else query b)
                 (fragment u))
      else
        let base_parts :=
          let bp := split "/" (path b) in
          if nonempty (List.last bp EmptyString) then removelast bp else bp in
        let segments :=
          if startswith "/" (path u) then split "/" (path u)
          else drop_empty_inner (base_parts ++ split "/" (path u)) in
        let resolved := resolve segments [] in
        let resolved :=
          if mem (List.last segments EmptyString) ["."; ".."]
          then resolved ++ [EmptyString] else resolved in
        let joined := join "/" resolved in
        urlunparse
          (Parts (scheme u) net (if nonempty joined then joined else "/")
                 (params u) (query u) (fragment u)).

(** Scheme and authority of a URL: what two URLs of one site share. *)
Definition origin (url : string) : string * string :=
  let p := urlparse url "" in (scheme p, netloc p).

End Url.

(** ** The downloader *)

Module Downloader.

Import Str Url.

(** [calculate_md5] *)
Definition calculate_md5 (content : string) : string :=
  MD5.md5_hex (Normalizer.clean_html_for_comparison content).

(** *** Data *)

(** One entry of the download cache, a dictionary with the optional keys
    [etag], [last_modified], [md5], [title] and [last_download]. *)
Record CacheRecord : Type := MkRecord {
  etag : option string;
  last_modified : option string;
  md5 : option string;
  title : option string;
  last_download : option string
}.

Definition empty_record : CacheRecord := MkRecord None None None None None.

Definition with_etag (v : string) (r : CacheRecord) : CacheRecord :=
  MkRecord (Some v) (last_modified r) (md5 r) (title r) (last_download r).
Definition with_last_modified (v : string) (r : CacheRecord) : CacheRecord :=
  MkRecord (etag r) (Some v) (md5 r) (title r) (last_download r).
Definition with_md5 (v : string) (r : CacheRecord) : CacheRecord :=
  MkRecord (etag r) (last_modified r) (Some v) (title r) (last_download r).
Definition with_title (v : string) (r : CacheRecord) : CacheRecord :=
  MkRecord (etag r) (last_modified r) (md5 r) (Some v) (last_download r).
Definition with_last_download (v : string) (r : CacheRecord) : CacheRecord :=
  MkRecord (etag r) (last_modified r) (md5 r) (title r) (Some v).

(** An entry of the output directory: a text file, or one whose content
    cannot be read as text. *)
Inductive node : Type :=
| File (content : string)
| Unreadable.

(** An HTTP response: the status, the two validators among its headers,
    and the body. *)
Record response : Type := MkResponse {
  status_code : nat;
  header_etag : option string;
  header_last_modified : option string;
  text : string
}.

(** The outcome of a GET: the request raised, or a response came back. *)
Inductive fetch_result : Type :=
| ConnectionError
| Got (r : response).

Abbreviation headers := (list (string * string)).
Abbreviation cache := (gmap string CacheRecord).

(** What a run does to the outside world, most recent first. *)
Inductive event : Type :=
| Request (url : string) (hs : headers)
| ParseTitle (html : string)
| Digest (html : string)
| ReadFile (name : string)
| WriteFile (name : string) (content : string)
| SaveCache (name : string) (data : cache).

(** The state of a run.  The entries of the output directory are named
    by their file name, and so is [output_filename]. *)
Record State : Type := MkState {
  cache_data : cache;
  title_mapping : gmap string string;
  files : gmap string node;
  processed_urls : gset string;
  page_count : nat;
  log : list event
}.

Definition set_cache (c : cache) (st : State) : State :=
  MkState c (title_mapping st) (files st) (processed_urls st)
          (page_count st) (log st).
Definition set_titles (m : gmap string string) (st : State) : State :=
  MkState (cache_data st) m (files st) (processed_urls st)
          (page_count st) (log st).
Definition set_files (f : gmap string node) (st : State) : State :=
  MkState (cache_data st) (title_mapping st) f (processed_urls st)
          (page_count st) (log st).
Definition set_processed (p : gset string) (st : State) : State :=
  MkState (cache_data st) (title_mapping st) (files st) p
          (page_count st) (log st).
Definition set_count (n : nat) (st : State) : State :=
  MkState (cache_data st) (title_mapping st) (files st) (processed_urls st)
          n (log st).
Definition record (e : event) (st : State) : State :=
  MkState (cache_data st) (title_mapping st) (files st) (processed_urls st)
          (page_count st) (e :: log st).

(** [if url not in cache_data: cache_data[url] = {}] followed by an
    assignment to a key of [cache_data[url]]. *)
Definition update (url : string) (f : CacheRecord -> CacheRecord)
           (c : cache) : cache :=
  <[url := f (default empty_record (c !! url))]> c.

(** *** Requests *)

Definition browser_headers : headers :=
  [ ("User-Agent",
     "Mozilla/5.0 (Windows NT 10.0; Win64; x64) AppleWebKit/537.36 (KHTML, like Gecko) Chrome/91.0.4472.124 Safari/537.36");
    ("Accept",
     "text/html,application/xhtml+xml,application/xml;q=0.9,image/webp,*/*;q=0.8");
    ("Accept-Language", "en-US,en;q=0.5");
    ("Connection", "keep-alive");
    ("Upgrade-Insecure-Requests", "1");
    ("Cache-Control", "max-age=0") ].

(** The validators of the cached record, as request headers. *)
Definition conditional_headers (r : option CacheRecord) : headers :=
  match r with
  | Some r =>
      match etag r with
      | Some e => [("If-None-Match", e)]
      | None => []
      end ++
      match last_modified r with
      | Some l => [("If-Modified-Since", l)]
      | None => []
      end
  | None => []
  end.

(** [response.raise_for_status()] raises for the 4xx and 5xx codes. *)
Definition raises_for_status (r : response) : bool :=
  (400 <=? status_code r)%nat && (status_code r <? 600)%nat.

(** *** Titles *)

(** A dictionary is true in a condition when it is not empty, and
    [None] is false. *)
Definition truthy_mapping (m : option (gmap string string)) : bool :=
  match m with
  | Some m => negb (bool_decide (m = ∅))
  | None => false
  end.

(** [check_title_exists] *)
Definition check_title_exists (t : string)
           (m : option (gmap string string)) : bool :=
  if negb (truthy_mapping m) || negb (nonempty t) then false
  else match m with
       | Some m => bool_decide (is_Some (m !! t))
       | None => false
       end.

(** *** File names *)

(** The name derived from the path of a URL, without its extension. *)
Definition filename_of_path (url_path : string) : string :=
  let safe_path := lstrip_char "/" url_path in
  let safe_path := if nonempty safe_path then safe_path else "index" in
  let safe_filename := replace_char "/" "_" safe_path in
  if (100 <? String.length safe_filename)%nat then
    first_n 90 safe_filename +:+ "_" +:+ first_n 10 (MD5.md5_hex safe_path)
  else safe_filename.

Definition output_filename_of (full_url : string) : string :=
  filename_of_path (path (urlparse full_url "")) +:+ ".html".

(** [s.endswith(suffix)] *)
Definition endswith (suffix s : string) : bool :=
  String.eqb (from_n (String.length s - String.length suffix) s) suffix.

Section Environment.

(** The outside world: the HTTP client (which may answer according to
    what happened before), the two uses of the HTML parser, the clock
    and [re.search] for the ignore patterns. *)
Variable http_get : list event -> string -> headers -> fetch_result.
Variable get_page_title : string -> option string.
Variable find_links : string -> list (option string).
Variable now : list event -> string.
Variable re_search : string -> string -> bool.

(** *** [save_webpage_as_html] *)

(** Lines 137 to 161: the title of the page and the check for a
    duplicate.  The first component tells whether the page is skipped as
    a duplicate. *)
Definition title_stage (url output_filename : string)
           (given : option (gmap string string)) (page_title : option string)
           (st : State) : bool * State :=
  match page_title with
  | Some t =>
      if nonempty t then
        if truthy_mapping given && check_title_exists t given then
          (true, set_cache (update url (with_title t) (cache_data st)) st)
        else
          let st := set_cache (update url (with_title t) (cache_data st)) st in
          (false,
           match given with
           | Some m => set_titles (<[t := output_filename]> m) st
           | None => st
           end)
      else (false, st)
  | None => (false, st)
  end.

(** The validators of the response, stored when it carries them. *)
Definition store_validators (r : response) (c : CacheRecord) : CacheRecord :=
  let c := match header_etag r with
           | Some e => with_etag e c
           | None => c
           end in
  match header_last_modified r with
  | Some l => with_last_modified l c
  | None => c
  end.

(** Does the cached record of [url] hold the digest [d]? *)
Definition cached_md5_is (d url : string) (c : cache) : bool :=
  match c !! url with
  | Some r => match md5 r with
              | Some d' => String.eqb d' d
              | None => false
              end
  | None => false
  end.

(** Lines 169 to 247: compare digests, then skip or write. *)
Definition reconcile (url output_filename : string) (r : response)
           (st : State) : bool * State :=
  let content_md5 := calculate_md5 (text r) in
  let st := record (Digest (text r)) st in
  let content_changed := negb (cached_md5_is content_md5 url (cache_data st)) in
  let '(content_changed, st) :=
    if content_changed then
      match files st !! output_filename with
      | Some (File existing_content) =>
          let st := record (Digest existing_content)
                           (record (ReadFile output_filename) st) in
          (negb (String.eqb (calculate_md5 existing_content) content_md5), st)
      | Some Unreadable => (true, record (ReadFile output_filename) st)
      | None => (true, st)
      end
    else (false, st) in
  if negb content_changed then
    (false,
     set_cache
       (update url (fun c => store_validators r (with_md5 content_md5 c))
               (cache_data st)) st)
  else
    let st := record (WriteFile output_filename (text r))
                     (set_files (<[output_filename := File (text r)]> (files st))
                                st) in
    (true,
     set_cache
       (update url
               (fun c => store_validators r
                           (with_last_download (now (log st))
                                               (with_md5 content_md5 c)))
               (cache_data st)) st).

(** [title_mapping if check_title_duplicate else None] *)
Definition given_mapping (checking : bool) (st : State)
  : option (gmap string string) :=
  if checking then Some (title_mapping st) else None.

Definition save_webpage_as_html (url output_filename : string)
           (checking : bool) (st : State) : bool * State :=
  let hs := browser_headers ++ conditional_headers (cache_data st !! url) in
  let result := http_get (log st) url hs in
  let st := record (Request url hs) st in
  match result with
  | ConnectionError => (false, st)
  | Got r =>
      if (status_code r =? 304)%nat then (false, st)
      else if raises_for_status r then (false, st)
      else
        let page_title := get_page_title (text r) in
        let st := record (ParseTitle (text r)) st in
        let '(duplicate, st) :=
          title_stage url output_filename (given_mapping checking st)
                      page_title st in
        if duplicate then (false, st)
        else reconcile url output_filename r st
  end.

(** *** [convert_gitbook_to_html] *)

(** Lines 362 to 365: count the page, and save the cache to a temporary
    file after every tenth page. *)
Definition count_page (st : State) : State :=
  let st := set_count (S (page_count st)) st in
  if (page_count st mod 10 =? 0)%nat
  then record (SaveCache "temp_cache.json" (cache_data st)) st
  else st.

(** The body of the loop over the links of the entry page. *)
Definition process_link (base_url : string) (ignore_patterns : list string)
           (checking : bool) (href : option string) (st : State) : State :=
  match href with
  | Some h =>
      if nonempty h && startswith "/" h then
        let full_url := urljoin base_url h in
        if bool_decide (full_url ∈ processed_urls st) then st
        else
          let st := set_processed ({[full_url]} ∪ processed_urls st) st in
          if existsb (fun pattern => re_search pattern full_url) ignore_patterns
          then st
          else
            count_page (save_webpage_as_html full_url
                          (output_filename_of full_url) checking st).2
      else st
  | None => st
  end.

Definition walk_links (base_url : string) (ignore_patterns : list string)
           (checking : bool) (links : list (option string)) (st : State)
  : State :=
  fold_left (fun st href => process_link base_url ignore_patterns checking
                                         href st) links st.

(** The titles of the files that are already in the output directory. *)
Definition scan_titles (fs : gmap string node) : gmap string string :=
  fold_left
    (fun m entry =>
       match entry with
       | (filename, File content) =>
           if endswith ".html" filename then
             match get_page_title content with
             | Some t => if nonempty t then <[t := filename]> m else m
             | None => m
             end
           else m
       | (_, Unreadable) => m
       end)
    (map_to_list fs) ∅.

(** [requests.get(base_url)] followed by [raise_for_status()]. *)
Definition download_entry (base_url : string) (st : State)
  : option string * State :=
  let result := http_get (log st) base_url [] in
  let st := record (Request base_url []) st in
  match result with
  | Got r => if raises_for_status r then (None, st) else (Some (text r), st)
  | ConnectionError => (None, st)
  end.

(** The whole run, from the loaded cache and the output directory.  The
    first component tells whether the run reached its end. *)
Definition convert_gitbook_to_html (base_url : string) (force_download : bool)
           (ignore_patterns : list string) (check_title_duplicate : bool)
           (loaded : cache) (fs : gmap string node) : bool * State :=
  let st :=
    MkState loaded (if check_title_duplicate then scan_titles fs else ∅)
            fs ∅ 0 [] in
  let '(saved_main, st) :=
    save_webpage_as_html base_url "index.html" check_title_duplicate st in
  let '(html_content, st) :=
    if saved_main || force_download then download_entry base_url st
    else match files st !! "index.html" with
         | Some (File content) => (Some content, st)
         | _ => download_entry base_url st
         end in
  match html_content with
  | None => (false, st)
  | Some html_content =>
      let st := walk_links base_url ignore_patterns check_title_duplicate
                           (find_links html_content) st in
      (true, record (SaveCache "download_cache.json" (cache_data st)) st)
  end.

End Environment.

End Downloader.


(** ** Normal forms of texts

    What the proofs about the normalizer speak of. *)

Module NormalForm.
Import Chars Re Normalizer.

(** The number of whitespace characters at the start of a text. *)
Fixpoint span_len (s : list ascii) : nat :=
  match s with
  | c :: t => if is_space c then S (span_len t) else O
  | [] => O
  end.

(** Every run of whitespace becomes one blank; [in_run] tells that the
    blank of the current run is already there. *)
Fixpoint squeeze (in_run : bool) (s : list ascii) : list ascii :=
  match s with
  | c :: t =>
      if is_space c then
        if in_run then squeeze true t else " "%char :: squeeze true t
      else c :: squeeze false t
  | [] => []
  end.

Definition starts_with_space (s : list ascii) : bool :=
  match s with
  | c :: _ => is_space c
  | [] => false
  end.

(** A text whose only whitespace is single blanks between other
    characters, or one blank at either end. *)
Fixpoint tidy (s : list ascii) : bool :=
  match s with
  | c :: t =>
      (if is_space c then Ascii.eqb c " " && negb (starts_with_space t)
       else true) && tidy t
  | [] => true
  end.


(** No pattern of the table occurs in the text. *)
Definition residue_free (s : list ascii) : bool :=
  forallb (fun ru => negb (search ru s)) scrub_rules.

(** The replacement text of a rule is made of characters that satisfy
    [P]. *)
Definition keeps (P : ascii -> Prop) (ru : rule) : Prop :=
  match repl ru with
  | Text s => Forall P (list_ascii_of_string s)
  | Group1 => True
  end.

(** A character that lower-casing leaves as it is. *)
Definition lowered (c : ascii) : Prop := lower c = c.

End NormalForm.

(** ** The policy of the downloader, as the specification words it *)

Module Policy.
Import Str Url Downloader.

(** The reconciler's outcome. *)
Inductive Action : Type := Skip | Write.

Definition fingerprint (html : string) : string := calculate_md5 html.

(** The decision of the reconciler as the specification words it. *)
Definition reconcile_spec (fresh_html : string)
           (cached_digest on_disk : option string) : Action :=
  let digest := fingerprint fresh_html in
  if bool_decide (cached_digest = Some digest) then Skip
  else match on_disk with
       | Some existing =>
           if bool_decide (fingerprint existing = digest) then Skip else Write
       | None => Write
       end.

(** The digest stored for [url], if any. *)
Definition cached_digest (url : string) (c : cache) : option string :=
  match c !! url with
  | Some r => md5 r
  | None => None
  end.

(** The text of the output file [name], when there is one that can be
    read. *)
Definition on_disk (name : string) (fs : gmap string node) : option string :=
  match fs !! name with
  | Some (File content) => Some content
  | _ => None
  end.

(** The record of [url], an empty one when it has none yet. *)
Definition record_of (url : string) (c : cache) : CacheRecord :=
  default empty_record (c !! url).

(** A validator after a response: the fresh value when the response
    carries one, the stored value otherwise. *)
Definition refreshed (fresh stored : option string) : option string :=
  match fresh with
  | Some v => Some v
  | None => stored
  end.

(** The headers of the request for [url]. *)
Definition request_headers (url : string) (st : State) : headers :=
  browser_headers ++ conditional_headers (cache_data st !! url).

(** The page has a title that the index already knows. *)
Definition is_duplicate (checking : bool) (st : State)
           (page_title : option string) : bool :=
  match page_title with
  | Some t => checking && nonempty t
              && bool_decide (is_Some (title_mapping st !! t))
  | None => false
  end.

(** What the reconciler stores in the record of the URL. *)
Definition settled (r : response) (written : bool) (time : string)
           (c : CacheRecord) : CacheRecord :=
  store_validators r
    (if written
     then with_last_download time (with_md5 (calculate_md5 (text r)) c)
     else with_md5 (calculate_md5 (text r)) c).

(** Was [url] requested? *)
Definition requested (url : string) (st : State) : bool :=
  existsb (fun e => match e with
                    | Request u _ => String.eqb u url
                    | _ => false
                    end) (log st).

Section Environment.

Variable http_get : list event -> string -> headers -> fetch_result.
Variable get_page_title : string -> option string.
Variable now : list event -> string.
Variable re_search : string -> string -> bool.

(** The URL that processing the link [href] fetches, if it fetches one. *)
Definition followed (base_url : string) (ignore_patterns : list string)
           (href : option string) (st : State) : option string :=
  match href with
  | Some h =>
      if nonempty h && startswith "/" h then
        let full_url := urljoin base_url h in
        if bool_decide (full_url ∈ processed_urls st) then None
        else if existsb (fun pattern => re_search pattern full_url)
                        ignore_patterns
             then None else Some full_url
      else None
  | None => None
  end.

(** The non-empty title of the page that a request for [url] brings,
    when it brings a page. *)
Definition page_title_of (url : string) (st : State) : option string :=
  match http_get (log st) url (request_headers url st) with
  | Got r =>
      if (status_code r =? 304)%nat || raises_for_status r then None
      else match get_page_title (text r) with
           | Some t => if nonempty t then Some t else None
           | None => None
           end
  | ConnectionError => None
  end.

(** The request for [url] fails: it raises, or the status is an error. *)
Definition fails (url : string) (st : State) : bool :=
  match http_get (log st) url (request_headers url st) with
  | Got r => raises_for_status r
  | ConnectionError => true
  end.

(** The title that the stage stores: the title of the page when it is
    not empty. *)
Definition stored_title (r : response) : option string :=
  match get_page_title (text r) with
  | Some t => if nonempty t then Some t else None
  | None => None
  end.

(** The state in which the reconciler runs: the request and the title
    are logged, and the title is stored, also in the index when there is
    one. *)
Definition titled (url out : string) (checking : bool) (r : response)
           (st : State) : State :=
  (title_stage url out
     (given_mapping checking
        (record (ParseTitle (text r))
                (record (Request url (request_headers url st)) st)))
     (get_page_title (text r))
     (record (ParseTitle (text r))
             (record (Request url (request_headers url st)) st))).2.

End Environment.

End Policy.

(** ** File names *)

Module Naming.
Import Str Url Downloader.

(** The path without its leading slashes, [index] when nothing is
    left. *)
Definition safe_path (url_path : string) : string :=
  let p := lstrip_char "/" url_path in
  if nonempty p then p else "index".

(** The path as one file name. *)
Definition safe_filename (url_path : string) : string :=
  replace_char "/" "_" (safe_path url_path).

(** The first ten digits of the digest of the path. *)
Definition path_hash (url_path : string) : string :=
  first_n 10 (MD5.md5_hex (safe_path url_path)).

End Naming.

(** ** Sample documents *)

Module Samples.
Import Chars Re Normalizer NormalForm.

(** The characters of a text. *)
Definition chars (s : string) : list ascii := list_ascii_of_string s.




(** A date and a time with two blanks between them. *)
Definition spaced_stamp : string := "2020-01-01  10:00:00".

Definition plain_page : string := "<P  Class='x'>Hello   World</P>".

(** A page of blanks, a line break and a tab. *)
Definition blank_page : string :=
  String " " (String newline (String "009" (String " " EmptyString))).

End Samples.

(** ** A sample site *)

Module Scenario.
Import Str Url Downloader Policy.

(** A small site. *)
Definition entry_url : string := "https://docs.example.com/".
Definition url_a : string := "https://docs.example.com/a".
Definition url_b : string := "https://docs.example.com/b".
Definition url_same : string := "https://docs.example.com/same".
Definition url_choices : string := "https://docs.example.com/choices".
Definition url_gone : string := "https://docs.example.com/gone".
Definition url_outside : string := "https://evil.example/x".

Definition html_a : string :=
  "<html><head><title>Intro</title></head><body>first</body></html>".
Definition html_b : string :=
  "<html><head><title>Intro</title></head><body>second</body></html>".
Definition html_choices : string :=
  "<html><head><title>Choices</title></head><body>pick one</body></html>".
Definition html_outside : string :=
  "<html><head><title>Elsewhere</title></head><body>x</body></html>".
Definition html_entry : string :=
  "<html><head><title>Docs</title></head><body><a href='//evil.example/x'>x</a></body></html>".

Definition resp_a : response :=
  MkResponse 200 (Some "abc") (Some "Mon, 01 Jan 2024 00:00:00 GMT") html_a.
Definition resp_b : response := MkResponse 200 (Some "def") None html_b.
Definition resp_same : response := MkResponse 304 None None "".
Definition resp_choices : response := MkResponse 300 None None html_choices.
Definition resp_gone : response := MkResponse 404 None None "not found".
Definition resp_outside : response := MkResponse 200 None None html_outside.
Definition resp_entry : response := MkResponse 200 None None html_entry.

(** Does the request carry the header [name] with the value [v]? *)
Definition sends (name v : string) (hs : headers) : bool :=
  existsb (fun h => String.eqb h.1 name && String.eqb h.2 v) hs.

(** The server: it answers 304 for [url_same] when the request names the
    current entity tag. *)
Definition server (history : list event) (url : string) (hs : headers)
  : fetch_result :=
  if String.eqb url url_a then Got resp_a
  else if String.eqb url url_b then Got resp_b
  else if String.eqb url url_same then
    if sends "If-None-Match" "v1" hs then Got resp_same else Got resp_a
  else if String.eqb url url_choices then Got resp_choices
  else if String.eqb url url_gone then Got resp_gone
  else if String.eqb url url_outside then Got resp_outside
  else if String.eqb url entry_url then Got resp_entry
  else ConnectionError.

(** What the parser finds in the pages of the site. *)
Definition titles (html : string) : option string :=
  if String.eqb html html_a then Some "Intro"
  else if String.eqb html html_b then Some "Intro"
  else if String.eqb html html_choices then Some "Choices"
  else if String.eqb html html_outside then Some "Elsewhere"
  else if String.eqb html html_entry then Some "Docs"
  else None.

Definition links (html : string) : list (option string) :=
  if String.eqb html html_entry then [Some "//evil.example/x"] else [].

Definition clock (history : list event) : string := "2024-01-01T00:00:00".

Definition no_match (pattern url : string) : bool := false.

(** An empty output directory and an empty cache. *)
Definition start : State := MkState ∅ ∅ ∅ ∅ 0 [].

(** A run that already knows the title of [existing.html]. *)
Definition with_existing : State :=
  MkState ∅ {["Intro" := "existing.html"]}
          {["existing.html" := File html_a]} ∅ 0 [].

(** A cache that holds the validators of [url_same]. *)
Definition with_validators : State :=
  MkState {[url_same := MkRecord (Some "v1") None (Some "0123") None None]}
          ∅ ∅ ∅ 0 [].

(** A short path. *)
Definition short_path : string := "/guide/getting-started".

(** Two long paths that agree on their first ninety characters. *)
Definition long_stem : string :=
  "/guide/section-section-section-section-section-section-section-section-section-section-page-00000".
Definition long_path_1 : string := long_stem +:+ "856630".
Definition long_path_2 : string := long_stem +:+ "865673".
Definition long_url_1 : string := "https://docs.example.com" +:+ long_path_1.
Definition long_url_2 : string := "https://docs.example.com" +:+ long_path_2.

End Scenario.

(** ** Measures of patterns *)

Module Measure.
Import Chars Re Normalizer.



(** All the characters below 256. *)
Definition all_chars : list ascii := map ascii_of_nat (seq 0 256).

(** A pattern that cannot match inside a text made of whitespace only:
    somewhere it asks for a character that is not whitespace, or for the
    edge of a word. *)
Fixpoint needs_ink (r : regex) : bool :=
  match r with
  | Eps | Star _ _ | NotAhead _ => false
  | Chr c => negb (is_space c)
  | Cls p => forallb (fun c => negb (is_space c && p c)) all_chars
  | Seq a b => needs_ink a || needs_ink b
  | Alt a b => needs_ink a && needs_ink b
  | Bnd => true
  end.

(** A text made of whitespace only. *)
Definition blank (s : list ascii) : Prop :=
  Forall (fun c => is_space c = true) s.

(** The last character of a text, if any. *)
Definition last_char (s : list ascii) : option ascii := head (rev s).

End Measure.

(** ** What a log tells *)

Module Trace.
Import Str Downloader.

(** The URLs that were requested, the most recent first. *)
Definition requests (l : list event) : list string :=
  flat_map (fun e => match e with
                     | Request u _ => [u]
                     | _ => []
                     end) l.

(** The names of the files that were written, the most recent first. *)
Definition written_files (l : list event) : list string :=
  flat_map (fun e => match e with
                     | WriteFile name _ => [name]
                     | _ => []
                     end) l.

(** The value of the header [name] of a request. *)
Definition header (name : string) (hs : headers) : option string :=
  match find (fun h => String.eqb h.1 name) hs with
  | Some h => Some h.2
  | None => None
  end.

(** A later state of a run keeps what an earlier one has: no file and
    no cache record is gone, and a file that differs was written in
    between. *)
Definition grows (st st' : State) : Prop :=
  (forall f, is_Some (files st !! f) -> is_Some (files st' !! f))
  /\ (forall u, is_Some (cache_data st !! u) ->
                is_Some (cache_data st' !! u))
  /\ (forall f, files st' !! f = files st !! f
                \/ In f (written_files (log st')))
  /\ (forall f, In f (written_files (log st)) ->
                In f (written_files (log st'))).

Section Titles.

Variable get_page_title : string -> option string.

(** What the scan of the output directory does with one entry. *)
Definition scan_step (m : gmap string string) (entry : string * node)
  : gmap string string :=
  match entry with
  | (filename, File content) =>
      if endswith ".html" filename then
        match get_page_title content with
        | Some t => if nonempty t then <[t := filename]> m else m
        | None => m
        end
      else m
  | (_, Unreadable) => m
  end.

End Titles.

End Trace.

(** ** The title listing of [main]

    The branch of [main] for [--list-titles]: it requests the entry page
    and every link of it, prints the titles it finds and saves them in
    [page_titles.json].  The file is written as JSON; its content is
    recorded here as the dictionary that is dumped. *)

Module Lister.
Import Str Url Downloader.




Section Environment.

Variable http_get : list event -> string -> headers -> fetch_result.
Variable get_page_title : string -> option string.
Variable find_links : string -> list (option string).
Variable re_search : string -> string -> bool.



End Environment.


End Lister.

(** ** Links that stay on the site *)

Module Links.
Import Chars Str Url.

(** A text without tab and line-break characters.  [urlsplit] removes
    these characters before it parses a URL, which the embedding leaves
    out: the statements about [urljoin] are about such texts. *)
Definition plain (s : string) : bool :=
  match find_any ["009"; "010"; "013"]%char s with
  | None => true
  | Some _ => false
  end.

Definition web (sch : string) : bool :=
  String.eqb sch "http" || String.eqb sch "https".

(** A character of a host that [urlsplit] takes without a check: an
    ASCII character that is not a bracket. *)
Definition host_char (c : ascii) : bool :=
  (code c <? 128)%nat && negb (Re.any_of "[]" c).

(** The address of a site: an [http] or [https] URL with a host. *)
Definition site (base : string) : bool :=
  let p := urlparse base "" in
  web (scheme p) && nonempty (netloc p)
  && forallb host_char (list_ascii_of_string (netloc p)) && plain base.

(** A reference that starts with one slash, not with two. *)
Definition rooted (h : string) : bool :=
  startswith "/" h && negb (startswith "//" h) && plain h.

(** A text that is empty or starts with one of the characters that end
    the host of a URL. *)
Definition headed (t : string) : bool :=
  match t with
  | EmptyString => true
  | String c _ => Re.any_of "/?#" c
  end.

End Links.

(** * Properties *)

(** ** The page handler and the walk *)

Module DownloaderFacts.
Import Str Url Downloader Policy.

Section Environment.

Variable http_get : list event -> string -> headers -> fetch_result.
Variable get_page_title : string -> option string.
Variable now : list event -> string.
Variable re_search : string -> string -> bool.

Abbreviation handler := (save_webpage_as_html http_get get_page_title now).
Abbreviation titled := (Policy.titled get_page_title).
Abbreviation stored_title := (Policy.stored_title get_page_title).
Abbreviation step := (process_link http_get get_page_title now re_search).
Abbreviation walk := (walk_links http_get get_page_title now re_search).

Lemma cached_md5_is_spec d url c :
  cached_md5_is d url c = bool_decide (cached_digest url c = Some d).
Proof.
  unfold cached_md5_is, cached_digest.
  destruct (c !! url) as [r|]; [|reflexivity].
  destruct (md5 r) as [d'|]; [|reflexivity].
  destruct (String.eqb_spec d' d) as [->|Hne].
  - symmetry. apply bool_decide_eq_true_2. reflexivity.
  - symmetry. apply bool_decide_eq_false_2. congruence.
Qed.

Lemma cached_digest_title url t c :
  cached_digest url (update url (with_title t) c) = cached_digest url c.
Proof.
  unfold cached_digest, update. rewrite lookup_insert_eq.
  destruct (c !! url); reflexivity.
Qed.

Lemma title_stage_duplicate url out checking page_title st :
  (title_stage url out (given_mapping checking st) page_title st).1
  = is_duplicate checking st page_title.
Proof.
  unfold title_stage, is_duplicate, given_mapping.
  destruct page_title as [t|]; [|reflexivity].
  destruct (nonempty t) eqn:Hn; [|by rewrite andb_false_r].
  destruct checking; [|reflexivity].
  unfold check_title_exists, truthy_mapping. rewrite Hn. cbn [negb orb andb].
  destruct (bool_decide (title_mapping st = ∅)) eqn:He.
  - apply bool_decide_eq_true_1 in He. rewrite He, lookup_empty.
    cbn. first [ reflexivity
               | symmetry; apply bool_decide_eq_false_2; intros [? ?];
                 discriminate ].
  - cbn [negb andb orb].
    destruct (bool_decide (is_Some (title_mapping st !! t))); reflexivity.
Qed.

Lemma handler_304 url out checking st r :
  http_get (log st) url (request_headers url st) = Got r ->
  status_code r = 304 ->
  handler url out checking st
  = (false, record (Request url (request_headers url st)) st).
Proof.
  intros Hget H304. unfold save_webpage_as_html.
  fold (request_headers url st). rewrite Hget, H304. reflexivity.
Qed.

Lemma handler_fails url out checking st :
  fails http_get url st = true ->
  handler url out checking st
  = (false, record (Request url (request_headers url st)) st).
Proof.
  unfold fails, save_webpage_as_html. fold (request_headers url st).
  destruct (http_get (log st) url (request_headers url st)) as [|r];
    [reflexivity|].
  intros ->. destruct (status_code r =? 304)%nat; reflexivity.
Qed.

Lemma handler_duplicate url out checking st r :
  http_get (log st) url (request_headers url st) = Got r ->
  status_code r <> 304 -> raises_for_status r = false ->
  is_duplicate checking st (get_page_title (text r)) = true ->
  handler url out checking st = (false, titled url out checking r st).
Proof.
  intros Hget H304 Hok Hdup. unfold save_webpage_as_html, titled.
  fold (request_headers url st). rewrite Hget, Hok.
  apply Nat.eqb_neq in H304. rewrite H304.
  pose proof (title_stage_duplicate url out checking
                (get_page_title (text r))
                (record (ParseTitle (text r))
                   (record (Request url (request_headers url st)) st)))
    as Hd.
  change (is_duplicate checking _ (get_page_title (text r)))
    with (is_duplicate checking st (get_page_title (text r))) in Hd.
  rewrite Hdup in Hd.
  destruct (title_stage url out _ _ _) as [dup st']. cbn [fst snd] in *.
  subst dup. reflexivity.
Qed.

Lemma handler_reconciles url out checking st r :
  http_get (log st) url (request_headers url st) = Got r ->
  status_code r <> 304 -> raises_for_status r = false ->
  is_duplicate checking st (get_page_title (text r)) = false ->
  handler url out checking st
  = reconcile now url out r (titled url out checking r st).
Proof.
  intros Hget H304 Hok Hdup. unfold save_webpage_as_html, titled.
  fold (request_headers url st). rewrite Hget, Hok.
  apply Nat.eqb_neq in H304. rewrite H304.
  pose proof (title_stage_duplicate url out checking
                (get_page_title (text r))
                (record (ParseTitle (text r))
                   (record (Request url (request_headers url st)) st)))
    as Hd.
  change (is_duplicate checking _ (get_page_title (text r)))
    with (is_duplicate checking st (get_page_title (text r))) in Hd.
  rewrite Hdup in Hd.
  destruct (title_stage url out _ _ _) as [dup st']. cbn [fst snd] in *.
  subst dup. reflexivity.
Qed.

(** *** The state after the title stage *)

Lemma titled_files url out checking r st :
  files (titled url out checking r st) = files st.
Proof.
  unfold titled, title_stage, given_mapping.
  destruct (get_page_title (text r)) as [t|]; [|reflexivity].
  destruct (nonempty t); [|reflexivity].
  destruct (truthy_mapping _ && check_title_exists _ _); [reflexivity|].
  destruct checking; reflexivity.
Qed.

Lemma titled_log url out checking r st :
  log (titled url out checking r st)
  = ParseTitle (text r) :: Request url (request_headers url st) :: log st.
Proof.
  unfold titled, title_stage, given_mapping.
  destruct (get_page_title (text r)) as [t|]; [|reflexivity].
  destruct (nonempty t); [|reflexivity].
  destruct (truthy_mapping _ && check_title_exists _ _); [reflexivity|].
  destruct checking; reflexivity.
Qed.

Lemma titled_cache url out checking r st :
  cache_data (titled url out checking r st)
  = match stored_title r with
    | Some t => update url (with_title t) (cache_data st)
    | None => cache_data st
    end.
Proof.
  unfold titled, title_stage, given_mapping, stored_title.
  destruct (get_page_title (text r)) as [t|]; [|reflexivity].
  destruct (nonempty t); [|reflexivity].
  destruct (truthy_mapping _ && check_title_exists _ _); [reflexivity|].
  destruct checking; reflexivity.
Qed.

Lemma titled_digest url out checking r st :
  cached_digest url (cache_data (titled url out checking r st))
  = cached_digest url (cache_data st).
Proof.
  rewrite titled_cache. destruct (stored_title r); [|reflexivity].
  apply cached_digest_title.
Qed.

Lemma record_of_update url f c :
  record_of url (update url f c) = f (record_of url c).
Proof. unfold record_of, update. rewrite lookup_insert_eq. reflexivity. Qed.

Lemma titled_mapping_duplicate url out checking r st :
  is_duplicate checking st (get_page_title (text r)) = true ->
  title_mapping (titled url out checking r st) = title_mapping st.
Proof.
  intros Hdup. unfold titled.
  pose proof (title_stage_duplicate url out checking
                (get_page_title (text r))
                (record (ParseTitle (text r))
                   (record (Request url (request_headers url st)) st)))
    as Hd.
  change (is_duplicate checking _ (get_page_title (text r)))
    with (is_duplicate checking st (get_page_title (text r))) in Hd.
  rewrite Hdup in Hd. revert Hd. unfold title_stage.
  destruct (get_page_title (text r)) as [t|]; [|discriminate].
  destruct (nonempty t); [|discriminate].
  destruct (truthy_mapping _ && check_title_exists _ _);
    [reflexivity | discriminate].
Qed.


(** *** The reconciler *)

Lemma eqb_decide (a b : string) : String.eqb a b = bool_decide (a = b).
Proof.
  destruct (String.eqb_spec a b) as [->|Hne]; symmetry.
  - apply bool_decide_eq_true_2. reflexivity.
  - apply bool_decide_eq_false_2. exact Hne.
Qed.


Lemma reconcile_decision url out r st :
  let '(written, st') := reconcile now url out r st in
  match reconcile_spec (text r) (cached_digest url (cache_data st))
                       (on_disk out (files st)) with
  | Skip => written = false /\ files st' = files st
  | Write => written = true
             /\ files st' = <[out := File (text r)]> (files st)
  end.
Proof.
  unfold reconcile, reconcile_spec, fingerprint, on_disk.
  cbn [cache_data record]. rewrite cached_md5_is_spec.
  destruct (bool_decide (cached_digest url (cache_data st) = _));
    [split; reflexivity|].
  cbn [negb files record].
  destruct (files st !! out) as [[c|]|]; cbn [negb].
  - rewrite eqb_decide.
    destruct (bool_decide (calculate_md5 c = _)); split; reflexivity.
  - split; reflexivity.
  - split; reflexivity.
Qed.

Lemma reconcile_cache url out r st :
  let '(written, st') := reconcile now url out r st in
  cache_data st'
  = update url (settled r written (now (log st'))) (cache_data st).
Proof.
  unfold reconcile, settled. cbn [cache_data record].
  destruct (cached_md5_is _ _ _); [reflexivity|]. cbn [negb files record].
  destruct (files st !! out) as [[c|]|]; cbn [negb];
    try destruct (String.eqb _ _); reflexivity.
Qed.

Lemma settled_fields r written time c :
  md5 (settled r written time c) = Some (calculate_md5 (text r))
  /\ etag (settled r written time c) = refreshed (header_etag r) (etag c)
  /\ last_modified (settled r written time c)
     = refreshed (header_last_modified r) (last_modified c)
  /\ last_download (settled r written time c)
     = (if written then Some time else last_download c)
  /\ title (settled r written time c) = title c.
Proof.
  unfold settled, store_validators, refreshed.
  destruct (header_etag r), (header_last_modified r), written;
    repeat split; reflexivity.
Qed.

Lemma titled_record url out checking r st :
  let old := record_of url (cache_data st) in
  let new := record_of url (cache_data (titled url out checking r st)) in
  etag new = etag old /\ last_modified new = last_modified old
  /\ md5 new = md5 old /\ last_download new = last_download old.
Proof.
  cbn zeta. rewrite titled_cache.
  destruct (stored_title r); [|repeat split; reflexivity].
  rewrite record_of_update. repeat split; reflexivity.
Qed.

(** *** The claims about one page *)


(** C2. When the response is a 304, the handler returns false and only
    the request is added to the log: no title is extracted, no digest is
    computed, no file is read or written, and the cache and the title
    index are as before, whatever digest the cache holds. *)
Theorem not_modified_short_circuit url out checking st r :
  http_get (log st) url (request_headers url st) = Got r ->
  status_code r = 304 ->
  let '(written, st') := handler url out checking st in
  written = false
  /\ log st' = Request url (request_headers url st) :: log st
  /\ files st' = files st
  /\ cache_data st' = cache_data st
  /\ title_mapping st' = title_mapping st.
Proof.
  intros Hget H304. rewrite (handler_304 _ _ _ _ _ Hget H304).
  repeat split; reflexivity.
Qed.

(** C3. After a 304 the cache is unchanged.  After a page that reaches
    the reconciler, the record of the URL holds the fresh digest, each
    validator that the response carries (the stored one stays when the
    response has none), and its download time is the current time when the
    page was written and is what it was when the page was skipped. *)
Theorem cache_record_update url out checking st r :
  http_get (log st) url (request_headers url st) = Got r ->
  let '(written, st') := handler url out checking st in
  if (status_code r =? 304)%nat then cache_data st' = cache_data st
  else
    raises_for_status r = false ->
    is_duplicate checking st (get_page_title (text r)) = false ->
    let old := record_of url (cache_data st) in
    let new := record_of url (cache_data st') in
    is_Some (cache_data st' !! url)
    /\ md5 new = Some (calculate_md5 (text r))
    /\ etag new = refreshed (header_etag r) (etag old)
    /\ last_modified new
       = refreshed (header_last_modified r) (last_modified old)
    /\ last_download new
       = (if written then Some (now (log st')) else last_download old).
Proof.
  intros Hget. destruct (Nat.eqb_spec (status_code r) 304) as [H304|H304].
  - rewrite (handler_304 _ _ _ _ _ Hget H304). reflexivity.
  - destruct (handler url out checking st) as [written st'] eqn:E.
    intros Hok Hdup.
    rewrite (handler_reconciles _ _ _ _ _ Hget H304 Hok Hdup) in E.
    pose proof (reconcile_cache url out r (titled url out checking r st))
      as Hc.
    rewrite E in Hc. cbn zeta. rewrite Hc. split.
    + unfold update. rewrite lookup_insert_eq. eauto.
    + rewrite record_of_update.
      destruct (settled_fields r written (now (log st'))
                  (record_of url
                     (cache_data (titled url out checking r st))))
        as (Hm & He & Hl & Hd & _).
      destruct (titled_record url out checking r st) as (He' & Hl' & _ & Hd').
      cbn zeta in *. rewrite Hm, He, Hl, Hd, He', Hl', Hd'.
      repeat split; reflexivity.
Qed.

(** C5, as amended.  When duplicate checking is on and the title of a
    fetched page is already in the index, the handler writes no file and
    computes no digest; it stores the title in the record of the URL and
    leaves the other fields of the record, the validators among them, as
    they were. *)
Theorem duplicate_title_records_title_only url out st r t :
  http_get (log st) url (request_headers url st) = Got r ->
  status_code r <> 304 ->
  raises_for_status r = false ->
  get_page_title (text r) = Some t ->
  nonempty t = true ->
  is_Some (title_mapping st !! t) ->
  let '(written, st') := handler url out true st in
  written = false
  /\ files st' = files st
  /\ title_mapping st' = title_mapping st
  /\ log st' = ParseTitle (text r)
               :: Request url (request_headers url st) :: log st
  /\ cache_data st' = update url (with_title t) (cache_data st)
  /\ etag (record_of url (cache_data st'))
     = etag (record_of url (cache_data st))
  /\ last_modified (record_of url (cache_data st'))
     = last_modified (record_of url (cache_data st)).
Proof.
  intros Hget H304 Hok Ht Hne Hin.
  assert (Hdup : is_duplicate true st (get_page_title (text r)) = true).
  { unfold is_duplicate. rewrite Ht, Hne. cbn [andb].
    apply bool_decide_eq_true_2, Hin. }
  rewrite (handler_duplicate _ _ _ _ _ Hget H304 Hok Hdup).
  rewrite titled_files, titled_log, titled_cache,
    (titled_mapping_duplicate _ _ _ _ _ Hdup).
  unfold stored_title. rewrite Ht, Hne, record_of_update.
  repeat split; reflexivity.
Qed.

(** *** The walk *)

(** The three ways in which the handler ends. *)
Lemma handler_cases url out checking st :
  handler url out checking st
  = (false, record (Request url (request_headers url st)) st)
  \/ (exists r,
        is_duplicate checking st (get_page_title (text r)) = true
        /\ handler url out checking st
           = (false, titled url out checking r st))
  \/ (exists r,
        is_duplicate checking st (get_page_title (text r)) = false
        /\ handler url out checking st
           = reconcile now url out r (titled url out checking r st)).
Proof.
  destruct (http_get (log st) url (request_headers url st)) as [|r] eqn:Hget.
  - left. apply handler_fails. unfold fails. rewrite Hget. reflexivity.
  - destruct (Nat.eqb_spec (status_code r) 304) as [H304|H304].
    + left. eapply handler_304; eauto.
    + destruct (raises_for_status r) eqn:Hok.
      * left. apply handler_fails. unfold fails. rewrite Hget. exact Hok.
      * destruct (is_duplicate checking st (get_page_title (text r))) eqn:Hd.
        -- right. left. exists r. split; [exact Hd|].
           eapply handler_duplicate; eauto.
        -- right. right. exists r. split; [exact Hd|].
           eapply handler_reconciles; eauto.
Qed.


Lemma count_page_cache st : cache_data (count_page st) = cache_data st.
Proof. unfold count_page. destruct (_ =? _)%nat; reflexivity. Qed.

Lemma count_page_files st : files (count_page st) = files st.
Proof. unfold count_page. destruct (_ =? _)%nat; reflexivity. Qed.

Lemma count_page_mapping st :
  title_mapping (count_page st) = title_mapping st.
Proof. unfold count_page. destruct (_ =? _)%nat; reflexivity. Qed.

Lemma step_followed base ignore checking h st u :
  followed re_search base ignore (Some h) st = Some u ->
  step base ignore checking (Some h) st
  = count_page
      (handler u (output_filename_of u) checking
               (set_processed ({[u]} ∪ processed_urls st) st)).2.
Proof.
  unfold followed, process_link.
  destruct (nonempty h && startswith "/" h); [|discriminate].
  destruct (bool_decide (urljoin base h ∈ processed_urls st)); [discriminate|].
  destruct (existsb _ ignore); [discriminate|].
  intros [= <-]. reflexivity.
Qed.



(** A page with a known title is suppressed. *)
Lemma known_title_suppressed url out st t :
  page_title_of http_get get_page_title url st = Some t ->
  is_Some (title_mapping st !! t) ->
  exists st',
    handler url out true st = (false, st')
    /\ files st' = files st
    /\ title_mapping st' = title_mapping st
    /\ title (record_of url (cache_data st')) = Some t.
Proof.
  unfold page_title_of. intros Hp Hin.
  destruct (http_get (log st) url (request_headers url st)) as [|r] eqn:Hget;
    [discriminate|].
  destruct (Nat.eqb_spec (status_code r) 304) as [H304|H304];
    [discriminate|].
  destruct (raises_for_status r) eqn:Hok; [discriminate|]. cbn [orb] in Hp.
  destruct (get_page_title (text r)) as [t'|] eqn:Ht; [|discriminate].
  destruct (nonempty t') eqn:Hne; [|discriminate].
  injection Hp as ->.
  assert (Hdup : is_duplicate true st (get_page_title (text r)) = true).
  { unfold is_duplicate. rewrite Ht, Hne. cbn [andb].
    apply bool_decide_eq_true_2, Hin. }
  exists (titled url out true r st).
  rewrite (handler_duplicate _ _ _ _ _ Hget H304 Hok Hdup).
  rewrite titled_files, titled_cache,
    (titled_mapping_duplicate _ _ _ _ _ Hdup).
  unfold stored_title. rewrite Ht, Hne, record_of_update.
  repeat split; reflexivity.
Qed.



(** C9, as amended.  When the request for a link raises, or its status
    is a 4xx or 5xx code, the handler returns false having done nothing
    but the request, and the walk goes on with the next link: the cache,
    the files and the title index are as before. *)
Theorem transport_failure_contained base ignore checking h rest st u :
  followed re_search base ignore (Some h) st = Some u ->
  fails http_get u st = true ->
  let st' := step base ignore checking (Some h) st in
  (forall out,
      handler u out checking st
      = (false, record (Request u (request_headers u st)) st))
  /\ cache_data st' = cache_data st
  /\ files st' = files st
  /\ title_mapping st' = title_mapping st
  /\ walk base ignore checking (Some h :: rest) st
     = walk base ignore checking rest st'.
Proof.
  intros Hf Hfail st'. split.
  { intros out. apply handler_fails, Hfail. }
  subst st'. rewrite (step_followed _ _ _ _ _ _ Hf).
  rewrite (handler_fails u (output_filename_of u) checking
             (set_processed ({[u]} ∪ processed_urls st) st) Hfail).
  cbn [snd]. rewrite count_page_cache, count_page_files, count_page_mapping.
  repeat split.
  unfold walk_links. cbn [fold_left].
  rewrite (step_followed _ _ _ _ _ _ Hf).
  rewrite (handler_fails u (output_filename_of u) checking
             (set_processed ({[u]} ∪ processed_urls st) st) Hfail).
  reflexivity.
Qed.

(** *** What one call of the handler touches *)

Import Trace.

Lemma titled_counters url out checking r st :
  processed_urls (titled url out checking r st) = processed_urls st
  /\ page_count (titled url out checking r st) = page_count st.
Proof.
  unfold Policy.titled, title_stage, given_mapping.
  destruct (get_page_title (text r)) as [t|]; [|split; reflexivity].
  destruct (nonempty t); [|split; reflexivity].
  destruct (truthy_mapping _ && check_title_exists _ _);
    [split; reflexivity|].
  destruct checking; split; reflexivity.
Qed.

Lemma reconcile_counters url out r st :
  processed_urls (reconcile now url out r st).2 = processed_urls st
  /\ page_count (reconcile now url out r st).2 = page_count st.
Proof.
  unfold reconcile. cbn [cache_data record].
  destruct (cached_md5_is _ _ _); [split; reflexivity|].
  cbn [negb files record].
  destruct (files st !! out) as [[c|]|]; cbn [negb];
    try destruct (String.eqb _ _); split; reflexivity.
Qed.

(** The files after the reconciler: as before, or with the page
    written. *)
Lemma reconcile_files url out r st :
  let '(written, st') := reconcile now url out r st in
  files st' = if written then <[out := File (text r)]> (files st)
              else files st.
Proof.
  unfold reconcile. cbn [cache_data record].
  destruct (cached_md5_is _ _ _); [reflexivity|]. cbn [negb files record].
  destruct (files st !! out) as [[c|]|]; cbn [negb];
    try destruct (String.eqb _ _); reflexivity.
Qed.

(** The log after the reconciler: the digest of the page, the read of
    the file when one is there and the cached digest differs, the digest
    of what was read, and the write when there is one. *)
Lemma reconcile_log url out r st :
  let '(written, st') := reconcile now url out r st in
  exists reads,
    log st' = (if written then [WriteFile out (text r)] else [])
              ++ reads ++ Digest (text r) :: log st
    /\ Forall (fun e => match e with
                        | ReadFile _ | Digest _ => True
                        | _ => False
                        end) reads.
Proof.
  unfold reconcile. cbn [cache_data record].
  destruct (cached_md5_is _ _ _); cbn [negb files record].
  { exists []. split; [reflexivity | constructor]. }
  destruct (files st !! out) as [[c|]|]; cbn [negb].
  - destruct (String.eqb _ _); cbn [negb];
      (exists [Digest c; ReadFile out]; split;
       [reflexivity | repeat constructor]).
  - exists [ReadFile out]. split; [reflexivity | repeat constructor].
  - exists []. split; [reflexivity | constructor].
Qed.

Lemma reads_are_quiet reads :
  Forall (fun e => match e with
                   | ReadFile _ | Digest _ => True
                   | _ => False
                   end) reads ->
  requests reads = [] /\ written_files reads = [].
Proof.
  unfold requests, written_files.
  induction 1 as [|e l He _ [IH1 IH2]]; [split; reflexivity|].
  cbn [flat_map]. rewrite IH1, IH2.
  destruct e; try contradiction; split; reflexivity.
Qed.

Lemma update_other url u f (c : cache) :
  u <> url -> update url f c !! u = c !! u.
Proof. intros H. unfold update. apply lookup_insert_ne. congruence. Qed.

Lemma update_is_Some url f (c : cache) : is_Some (update url f c !! url).
Proof. unfold update. rewrite lookup_insert_eq. eauto. Qed.

Lemma titled_cache_other url out checking r st u :
  u <> url ->
  cache_data (titled url out checking r st) !! u = cache_data st !! u.
Proof.
  intros H. rewrite titled_cache. destruct (stored_title r); [|reflexivity].
  apply update_other, H.
Qed.

Lemma titled_cache_keeps url out checking r st :
  is_Some (cache_data st !! url) ->
  is_Some (cache_data (titled url out checking r st) !! url).
Proof.
  intros H. rewrite titled_cache. destruct (stored_title r); [|exact H].
  apply update_is_Some.
Qed.

Lemma handler_counters url out checking st :
  processed_urls (handler url out checking st).2 = processed_urls st
  /\ page_count (handler url out checking st).2 = page_count st.
Proof.
  destruct (handler_cases url out checking st)
    as [E | [(r & Hd & E) | (r & Hd & E)]]; rewrite E; cbn [snd].
  - split; reflexivity.
  - apply titled_counters.
  - destruct (reconcile_counters url out r (titled url out checking r st))
      as [-> ->].
    apply titled_counters.
Qed.

Lemma handler_other_files url out checking st f :
  f <> out -> files (handler url out checking st).2 !! f = files st !! f.
Proof.
  intros Hne.
  destruct (handler_cases url out checking st)
    as [E | [(r & Hd & E) | (r & Hd & E)]]; rewrite E; cbn [snd].
  - reflexivity.
  - rewrite titled_files. reflexivity.
  - pose proof (reconcile_files url out r (titled url out checking r st))
      as Hf.
    destruct (reconcile now url out r (titled url out checking r st))
      as [written st'].
    cbn [snd]. rewrite Hf, titled_files. destruct written; [|reflexivity].
    apply lookup_insert_ne. congruence.
Qed.

Lemma handler_keeps_file url out checking st f :
  is_Some (files st !! f) ->
  is_Some (files (handler url out checking st).2 !! f).
Proof.
  intros H. destruct (decide (f = out)) as [->|Hne];
    [|rewrite handler_other_files by exact Hne; exact H].
  destruct (handler_cases url out checking st)
    as [E | [(r & Hd & E) | (r & Hd & E)]]; rewrite E; cbn [snd].
  - exact H.
  - rewrite titled_files. exact H.
  - pose proof (reconcile_files url out r (titled url out checking r st))
      as Hf.
    destruct (reconcile now url out r (titled url out checking r st))
      as [written st'].
    cbn [snd]. rewrite Hf, titled_files. destruct written; [|exact H].
    rewrite lookup_insert_eq. eauto.
Qed.

Lemma handler_other_records url out checking st u :
  u <> url ->
  cache_data (handler url out checking st).2 !! u = cache_data st !! u.
Proof.
  intros Hne.
  destruct (handler_cases url out checking st)
    as [E | [(r & Hd & E) | (r & Hd & E)]]; rewrite E; cbn [snd].
  - reflexivity.
  - apply titled_cache_other, Hne.
  - pose proof (reconcile_cache url out r (titled url out checking r st))
      as Hc.
    destruct (reconcile now url out r (titled url out checking r st))
      as [written st'].
    cbn [snd]. rewrite Hc, update_other by exact Hne.
    apply titled_cache_other, Hne.
Qed.

Lemma handler_keeps_record url out checking st u :
  is_Some (cache_data st !! u) ->
  is_Some (cache_data (handler url out checking st).2 !! u).
Proof.
  intros H. destruct (decide (u = url)) as [->|Hne];
    [|rewrite handler_other_records by exact Hne; exact H].
  destruct (handler_cases url out checking st)
    as [E | [(r & Hd & E) | (r & Hd & E)]]; rewrite E; cbn [snd].
  - exact H.
  - apply titled_cache_keeps, H.
  - pose proof (reconcile_cache url out r (titled url out checking r st))
      as Hc.
    destruct (reconcile now url out r (titled url out checking r st))
      as [written st'].
    cbn [snd]. rewrite Hc. apply update_is_Some.
Qed.

(** X1.  One call of the handler leaves every file but its output file
    and every cache record but that of its URL as they were; it removes
    neither a file nor a record, and it does not touch the set of
    processed URLs or the page counter. *)
Theorem handler_frame url out checking st :
  let st' := (save_webpage_as_html http_get get_page_title now url out
                                   checking st).2 in
  (forall f, f <> out -> files st' !! f = files st !! f)
  /\ (forall u, u <> url -> cache_data st' !! u = cache_data st !! u)
  /\ (forall f, is_Some (files st !! f) -> is_Some (files st' !! f))
  /\ (forall u, is_Some (cache_data st !! u) ->
                is_Some (cache_data st' !! u))
  /\ processed_urls st' = processed_urls st
  /\ page_count st' = page_count st.
Proof.
  cbn zeta. split; [intros f; apply handler_other_files|].
  split; [intros u; apply handler_other_records|].
  split; [intros f; apply handler_keeps_file|].
  split; [intros u; apply handler_keeps_record|].
  apply handler_counters.
Qed.

(** The validators among the headers of a request. *)
Lemma request_validators url st :
  header "If-None-Match" (request_headers url st)
  = etag (record_of url (cache_data st))
  /\ header "If-Modified-Since" (request_headers url st)
     = last_modified (record_of url (cache_data st)).
Proof.
  unfold request_headers, record_of, conditional_headers.
  destruct (cache_data st !! url) as [[[e|] [l|] m t d]|];
    split; reflexivity.
Qed.

(** What a call adds to the log. *)
Lemma handler_log url out checking st :
  exists later,
    log (handler url out checking st).2
    = later ++ Request url (request_headers url st) :: log st
    /\ requests later = []
    /\ (written_files later
        = if (handler url out checking st).1 then [out] else []).
Proof.
  destruct (handler_cases url out checking st)
    as [E | [(r & Hd & E) | (r & Hd & E)]]; rewrite E; cbn [fst snd].
  - exists []. repeat split; reflexivity.
  - rewrite titled_log. exists [ParseTitle (text r)].
    repeat split; reflexivity.
  - pose proof (reconcile_log url out r (titled url out checking r st))
      as Hl.
    destruct (reconcile now url out r (titled url out checking r st))
      as [written st'].
    cbn [fst snd]. destruct Hl as (reads & -> & Hreads).
    rewrite titled_log.
    destruct (reads_are_quiet reads Hreads) as [Hq Hw].
    exists ((if written then [WriteFile out (text r)] else [])
            ++ reads ++ [Digest (text r); ParseTitle (text r)]).
    split; [rewrite <- !app_assoc; reflexivity|].
    unfold requests, written_files in *.
    rewrite !flat_map_app, Hq, Hw. destruct written; split; reflexivity.
Qed.

Lemma handler_requests url out checking st :
  requests (log (handler url out checking st).2) = url :: requests (log st).
Proof.
  destruct (handler_log url out checking st) as (later & -> & Hq & _).
  unfold requests in *. rewrite flat_map_app, Hq. reflexivity.
Qed.

Lemma handler_written_files url out checking st :
  written_files (log (handler url out checking st).2)
  = (if (handler url out checking st).1 then [out] else [])
    ++ written_files (log st).
Proof.
  destruct (handler_log url out checking st) as (later & -> & _ & Hw).
  unfold written_files in *. rewrite flat_map_app, Hw. reflexivity.
Qed.

(** X2.  One call of the handler sends exactly one request, for its URL,
    before anything else that it does; the request carries If-None-Match
    with the cached entity tag and If-Modified-Since with the cached date,
    each exactly when the cache has one for the URL. *)
Theorem handler_requests_once url out checking st :
  let st' := (handler url out checking st).2 in
  requests (log st') = url :: requests (log st)
  /\ (exists later,
        log st' = later ++ Request url (request_headers url st) :: log st)
  /\ header "If-None-Match" (request_headers url st)
     = etag (record_of url (cache_data st))
  /\ header "If-Modified-Since" (request_headers url st)
     = last_modified (record_of url (cache_data st)).
Proof.
  cbn zeta. split; [apply handler_requests|].
  split; [|apply request_validators].
  destruct (handler_log url out checking st) as (later & H & _).
  exists later. exact H.
Qed.

(** X3.  The handler returns true exactly when it wrote: then the output
    file holds the body of the response and that is the only write; when it
    returns false, no file was written and the directory is as before. *)
Theorem handler_returns_the_write url out checking st :
  let '(written, st') := handler url out checking st in
  if written then
    exists r,
      http_get (log st) url (request_headers url st) = Got r
      /\ files st' = <[out := File (text r)]> (files st)
      /\ written_files (log st') = out :: written_files (log st)
  else
    files st' = files st
    /\ written_files (log st') = written_files (log st).
Proof.
  destruct (http_get (log st) url (request_headers url st)) as [|r] eqn:Hget.
  { rewrite handler_fails; [split; reflexivity|].
    unfold fails. rewrite Hget. reflexivity. }
  destruct (Nat.eqb_spec (status_code r) 304) as [H304|H304].
  { rewrite (handler_304 _ _ _ _ _ Hget H304). split; reflexivity. }
  destruct (raises_for_status r) eqn:Hok.
  { rewrite handler_fails; [split; reflexivity|].
    unfold fails. rewrite Hget. exact Hok. }
  destruct (is_duplicate checking st (get_page_title (text r))) eqn:Hd.
  { rewrite (handler_duplicate _ _ _ _ _ Hget H304 Hok Hd).
    rewrite titled_files, titled_log. split; reflexivity. }
  rewrite (handler_reconciles _ _ _ _ _ Hget H304 Hok Hd).
  pose proof (reconcile_files url out r (titled url out checking r st)) as Hf.
  pose proof (reconcile_log url out r (titled url out checking r st)) as Hl.
  destruct (reconcile now url out r (titled url out checking r st))
    as [written st'].
  destruct Hl as (reads & Hl & Hreads).
  pose proof (proj2 (reads_are_quiet reads Hreads)) as Hn.
  rewrite titled_files in Hf. rewrite titled_log in Hl.
  assert (Hw : written_files (log st')
               = (if written then [out] else []) ++ written_files (log st)).
  { rewrite Hl. unfold written_files in *.
    rewrite !flat_map_app, Hn. destruct written; reflexivity. }
  destruct written.
  - exists r. repeat split; [exact Hf | exact Hw].
  - split; [exact Hf | exact Hw].
Qed.

(** *** A second call for the same page *)

Lemma cached_digest_record url (c : cache) :
  cached_digest url c = md5 (record_of url c).
Proof.
  unfold cached_digest, record_of. destruct (c !! url); reflexivity.
Qed.

Lemma is_duplicate_mapping checking st st' page_title :
  title_mapping st' = title_mapping st ->
  is_duplicate checking st' page_title = is_duplicate checking st page_title.
Proof. intros H. unfold is_duplicate. rewrite H. reflexivity. Qed.

(** The digest that the reconciler leaves in the cache. *)
Lemma reconcile_digest url out r st :
  cached_digest url (cache_data (reconcile now url out r st).2)
  = Some (calculate_md5 (text r)).
Proof.
  pose proof (reconcile_cache url out r st) as Hc.
  destruct (reconcile now url out r st) as [written st']. cbn [snd].
  rewrite Hc, cached_digest_record, record_of_update.
  apply settled_fields.
Qed.

(** A page whose digest is the cached one is skipped. *)
Lemma reconcile_skips url out r st :
  cached_digest url (cache_data st) = Some (calculate_md5 (text r)) ->
  (reconcile now url out r st).1 = false
  /\ files (reconcile now url out r st).2 = files st.
Proof.
  intros H. pose proof (reconcile_decision url out r st) as Hdec.
  destruct (reconcile now url out r st) as [written st'].
  unfold reconcile_spec, fingerprint in Hdec. rewrite H in Hdec.
  rewrite bool_decide_eq_true_2 in Hdec by reflexivity. exact Hdec.
Qed.

(** X4.  After the handler has fetched a page, a second call for the same
    URL that receives a page with the same title and the same digest
    writes nothing, whether duplicate checking is on or off. *)
Theorem unchanged_page_not_rewritten url out checking st r1 r2 :
  http_get (log st) url (request_headers url st) = Got r1 ->
  status_code r1 <> 304 ->
  raises_for_status r1 = false ->
  let st1 := (handler url out checking st).2 in
  http_get (log st1) url (request_headers url st1) = Got r2 ->
  get_page_title (text r2) = get_page_title (text r1) ->
  calculate_md5 (text r2) = calculate_md5 (text r1) ->
  let '(written, st2) := handler url out checking st1 in
  written = false /\ files st2 = files st1.
Proof.
  intros Hget1 H304 Hok1 st1 Hget2 Ht Hm.
  destruct (Nat.eqb_spec (status_code r2) 304) as [H304'|H304'].
  { rewrite (handler_304 _ _ _ _ _ Hget2 H304'). split; reflexivity. }
  destruct (raises_for_status r2) eqn:Hok2.
  { rewrite handler_fails; [split; reflexivity|].
    unfold fails. rewrite Hget2. exact Hok2. }
  destruct (is_duplicate checking st1 (get_page_title (text r2))) eqn:Hd2.
  { rewrite (handler_duplicate _ _ _ _ _ Hget2 H304' Hok2 Hd2).
    rewrite titled_files. split; reflexivity. }
  rewrite (handler_reconciles _ _ _ _ _ Hget2 H304' Hok2 Hd2).
  assert (Hc : cached_digest url (cache_data st1)
               = Some (calculate_md5 (text r2))).
  { rewrite Hm. subst st1.
    destruct (is_duplicate checking st (get_page_title (text r1))) eqn:Hd1.
    - exfalso.
      rewrite (handler_duplicate _ _ _ _ _ Hget1 H304 Hok1 Hd1) in Hd2.
      cbn [snd] in Hd2.
      rewrite (is_duplicate_mapping checking st) in Hd2
        by (apply titled_mapping_duplicate, Hd1).
      rewrite Ht in Hd2. congruence.
    - rewrite (handler_reconciles _ _ _ _ _ Hget1 H304 Hok1 Hd1).
      apply reconcile_digest. }
  pose proof (reconcile_skips url out r2 (titled url out checking r2 st1))
    as Hs.
  rewrite titled_digest, titled_files in Hs. specialize (Hs Hc).
  destruct (reconcile now url out r2 (titled url out checking r2 st1))
    as [written st2].
  exact Hs.
Qed.

(** *** The title index *)

(** X5.  The check for a known title says yes exactly when an index is
    given, the title is not empty and the title is a key of the index; an
    absent index, an empty index and an empty title all give no. *)
Theorem check_title_exists_spec t m :
  check_title_exists t m = true
  <-> exists d, m = Some d /\ t <> "" /\ is_Some (d !! t).
Proof.
  unfold check_title_exists, truthy_mapping. split.
  - destruct m as [d|]; [|discriminate].
    destruct (bool_decide (d = ∅)); [discriminate|].
    destruct t as [|a t]; [discriminate|]. cbn [negb nonempty orb].
    intros H. apply bool_decide_eq_true_1 in H.
    exists d. repeat split; [discriminate | exact H].
  - intros (d & -> & Hne & Hin).
    rewrite (bool_decide_eq_false_2 (d = ∅)).
    + destruct t as [|a t]; [congruence|]. cbn [negb nonempty orb].
      apply bool_decide_eq_true_2, Hin.
    + intros ->. rewrite lookup_empty in Hin. destruct Hin; discriminate.
Qed.

(** One step of the scan of the output directory. *)
Lemma scan_step_keeps (m : gmap string string) (entry : string * node) t :
  is_Some (m !! t) ->
  is_Some
    (scan_step get_page_title m entry !! t).
Proof.
  intros H. unfold scan_step. destruct entry as [f [c|]]; [|exact H].
  destruct (endswith ".html" f); [|exact H].
  destruct (get_page_title c) as [t'|]; [|exact H].
  destruct (nonempty t'); [|exact H].
  destruct (decide (t' = t)) as [->|Hne].
  - rewrite lookup_insert_eq. eauto.
  - rewrite lookup_insert_ne by exact Hne. exact H.
Qed.

Lemma scan_list_complete (l : list (string * node))
      (m : gmap string string) t f c :
  is_Some (m !! t)
  \/ (In (f, File c) l /\ endswith ".html" f = true
      /\ get_page_title c = Some t /\ nonempty t = true) ->
  is_Some
    (fold_left (scan_step get_page_title) l m !! t).
Proof.
  revert m. induction l as [|entry l IH]; intros m H.
  - destruct H as [H | [[] _]]. exact H.
  - cbn [fold_left]. apply IH.
    destruct H as [H | ([-> | Hin] & He & Ht & Hn)].
    + left. apply scan_step_keeps, H.
    + left. unfold scan_step. rewrite He, Ht, Hn, lookup_insert_eq. eauto.
    + right. auto.
Qed.

Lemma scan_list_sound (l : list (string * node))
      (m : gmap string string) t f :
  fold_left (scan_step get_page_title) l m !! t = Some f ->
  m !! t = Some f
  \/ exists c, In (f, File c) l /\ endswith ".html" f = true
               /\ get_page_title c = Some t /\ nonempty t = true.
Proof.
  revert m. induction l as [|entry l IH]; intros m H; [left; exact H|].
  cbn [fold_left] in H. apply IH in H.
  destruct H as [H | (c & Hin & Hrest)];
    [|right; exists c; split; [right; exact Hin | exact Hrest]].
  unfold scan_step in H. destruct entry as [g [c|]]; [|left; exact H].
  destruct (endswith ".html" g) eqn:He; [|left; exact H].
  destruct (get_page_title c) as [t'|] eqn:Ht; [|left; exact H].
  destruct (nonempty t') eqn:Hn; [|left; exact H].
  destruct (decide (t' = t)) as [->|Hne].
  - rewrite lookup_insert_eq in H. injection H as ->.
    right. exists c. repeat split; auto. left. reflexivity.
  - rewrite lookup_insert_ne in H by exact Hne. left. exact H.
Qed.

(** X6.  The index built from the output directory knows exactly the
    non-empty titles of the readable files whose names end in [.html], and
    the file it names for a title is one of the files that have it. *)
Theorem scan_titles_spec (fs : gmap string node) t :
  (forall f,
      scan_titles get_page_title fs !! t = Some f ->
      exists c, fs !! f = Some (File c) /\ endswith ".html" f = true
                /\ get_page_title c = Some t /\ nonempty t = true)
  /\ (is_Some (scan_titles get_page_title fs !! t)
      <-> exists f c, fs !! f = Some (File c) /\ endswith ".html" f = true
                      /\ get_page_title c = Some t /\ nonempty t = true).
Proof.
  assert (Hsound : forall f,
             scan_titles get_page_title fs !! t = Some f ->
             exists c, fs !! f = Some (File c) /\ endswith ".html" f = true
                       /\ get_page_title c = Some t /\ nonempty t = true).
  { intros f H. unfold scan_titles in H.
    change (fold_left (scan_step get_page_title) (map_to_list fs) ∅ !! t
            = Some f) in H.
    apply scan_list_sound in H.
    destruct H as [H | (c & Hin & Hrest)].
    - rewrite lookup_empty in H. discriminate.
    - exists c. split; [|exact Hrest].
      apply elem_of_map_to_list, list_elem_of_In, Hin. }
  split; [exact Hsound|]. split.
  - intros [f H]. exists f. apply Hsound, H.
  - intros (f & c & Hf & Hrest). unfold scan_titles.
    change (is_Some (fold_left (scan_step get_page_title) (map_to_list fs) ∅
                     !! t)).
    apply (scan_list_complete _ _ t f c). right. split; [|exact Hrest].
    apply list_elem_of_In, elem_of_map_to_list, Hf.
Qed.

(** The index built from a directory knows the title of each of its
    pages. *)
Lemma scan_titles_complete (fs : gmap string node) f c t :
  fs !! f = Some (File c) -> endswith ".html" f = true ->
  get_page_title c = Some t -> nonempty t = true ->
  is_Some (scan_titles get_page_title fs !! t).
Proof.
  intros Hf He Ht Hn. unfold scan_titles.
  change (is_Some (fold_left (scan_step get_page_title) (map_to_list fs) ∅
                   !! t)).
  apply (scan_list_complete _ _ t f c). right.
  split; [|auto]. apply list_elem_of_In, elem_of_map_to_list, Hf.
Qed.

(** X21.  With duplicate checking on and the index built from the output
    directory, a page whose title is the title of a saved page is not
    written, whatever its content and whatever its output file: a saved
    page stands in the way of its own update. *)
Theorem saved_title_blocks_the_page url out st f c t :
  title_mapping st = scan_titles get_page_title (files st) ->
  files st !! f = Some (File c) ->
  endswith ".html" f = true ->
  get_page_title c = Some t ->
  page_title_of http_get get_page_title url st = Some t ->
  let '(written, st') := handler url out true st in
  written = false /\ files st' = files st.
Proof.
  intros Hm Hf He Ht Hp.
  assert (Hn : nonempty t = true).
  { revert Hp. unfold page_title_of.
    destruct (http_get (log st) url (request_headers url st)) as [|r];
      [discriminate|].
    destruct ((status_code r =? 304)%nat || raises_for_status r);
      [discriminate|].
    destruct (get_page_title (text r)) as [t'|]; [|discriminate].
    destruct (nonempty t') eqn:E; [|discriminate].
    intros [= <-]. exact E. }
  destruct (known_title_suppressed url out st t Hp)
    as (st' & E & Hfiles & _).
  { rewrite Hm. exact (scan_titles_complete _ f c t Hf He Ht Hn). }
  rewrite E. split; [reflexivity | exact Hfiles].
Qed.

(** *** From one call to the next *)

(** The record that a reconciled page leaves. *)
Lemma reconciled_record url out checking st r :
  http_get (log st) url (request_headers url st) = Got r ->
  status_code r <> 304 -> raises_for_status r = false ->
  is_duplicate checking st (get_page_title (text r)) = false ->
  let old := record_of url (cache_data st) in
  let new := record_of url (cache_data (handler url out checking st).2) in
  etag new = refreshed (header_etag r) (etag old)
  /\ last_modified new
     = refreshed (header_last_modified r) (last_modified old).
Proof.
  intros Hget H304 Hok Hd. cbn zeta.
  rewrite (handler_reconciles _ _ _ _ _ Hget H304 Hok Hd).
  pose proof (reconcile_cache url out r (titled url out checking r st)) as Hc.
  destruct (reconcile now url out r (titled url out checking r st))
    as [written st'].
  cbn [snd]. rewrite Hc, record_of_update.
  destruct (settled_fields r written (now (log st'))
              (record_of url (cache_data (titled url out checking r st))))
    as (_ & He & Hl & _).
  destruct (titled_record url out checking r st) as (He' & Hl' & _).
  cbn zeta in *. rewrite He, Hl, He', Hl'. split; reflexivity.
Qed.

(** X17.  The validators come back: after a page that reached the
    reconciler, the next request for the URL carries in If-None-Match the
    entity tag of the response and in If-Modified-Since its date, or the
    values sent before when the response had none. *)
Theorem validators_are_sent_back url out checking st r :
  http_get (log st) url (request_headers url st) = Got r ->
  status_code r <> 304 ->
  raises_for_status r = false ->
  is_duplicate checking st (get_page_title (text r)) = false ->
  let st' := (handler url out checking st).2 in
  header "If-None-Match" (request_headers url st')
  = refreshed (header_etag r)
              (header "If-None-Match" (request_headers url st))
  /\ header "If-Modified-Since" (request_headers url st')
     = refreshed (header_last_modified r)
                 (header "If-Modified-Since" (request_headers url st)).
Proof.
  intros Hget H304 Hok Hd. cbn zeta.
  destruct (request_validators url st) as [-> ->].
  destruct (request_validators url (handler url out checking st).2)
    as [-> ->].
  exact (reconciled_record url out checking st r Hget H304 Hok Hd).
Qed.

(** *** The walk as a whole *)

Lemma count_page_log st :
  requests (log (count_page st)) = requests (log st)
  /\ written_files (log (count_page st)) = written_files (log st).
Proof. unfold count_page. destruct (_ =? _)%nat; split; reflexivity. Qed.

Lemma count_page_counters st :
  processed_urls (count_page st) = processed_urls st
  /\ page_count (count_page st) = S (page_count st).
Proof. unfold count_page. destruct (_ =? _)%nat; split; reflexivity. Qed.

Lemma followed_spec base ignore href st u :
  followed re_search base ignore href st = Some u ->
  exists h,
    href = Some h /\ startswith "/" h = true /\ u = urljoin base h
    /\ (u ∉ processed_urls st)
    /\ existsb (fun pattern => re_search pattern u) ignore = false.
Proof.
  unfold followed. destruct href as [h|]; [|discriminate].
  destruct (nonempty h); [|discriminate]. cbn [andb].
  destruct (startswith "/" h) eqn:Hs; [|discriminate].
  destruct (bool_decide (urljoin base h ∈ processed_urls st)) eqn:Hp;
    [discriminate|].
  destruct (existsb _ ignore) eqn:Hi; [discriminate|].
  intros [= <-]. exists h. apply bool_decide_eq_false_1 in Hp.
  repeat split; assumption.
Qed.

(** A link that is not followed changes nothing but, at most, the set
    of processed URLs. *)
Lemma step_not_followed base ignore checking href st :
  followed re_search base ignore href st = None ->
  let st' := step base ignore checking href st in
  log st' = log st /\ files st' = files st
  /\ cache_data st' = cache_data st /\ title_mapping st' = title_mapping st
  /\ page_count st' = page_count st
  /\ (processed_urls st ⊆ processed_urls st').
Proof.
  unfold followed, process_link. destruct href as [h|];
    [|intros _; repeat split; reflexivity].
  destruct (nonempty h && startswith "/" h);
    [|intros _; repeat split; reflexivity].
  destruct (bool_decide (urljoin base h ∈ processed_urls st));
    [intros _; repeat split; reflexivity|].
  destruct (existsb _ ignore); [|discriminate].
  intros _. repeat split; try reflexivity.
  cbn [processed_urls set_processed]. apply union_subseteq_r.
Qed.

(** What the walk requests, with the URLs it has processed. *)
Lemma walk_new_requests base ignore checking links st :
  exists new,
    requests (log (walk base ignore checking links st))
    = new ++ requests (log st)
    /\ NoDup new
    /\ page_count (walk base ignore checking links st)
       = page_count st + length new
    /\ (processed_urls st
        ⊆ processed_urls (walk base ignore checking links st))
    /\ forall u, In u new ->
         (u ∉ processed_urls st)
         /\ existsb (fun pattern => re_search pattern u) ignore = false
         /\ exists h, In (Some h) links /\ startswith "/" h = true
                      /\ u = urljoin base h.
Proof.
  unfold walk_links.
  revert st. induction links as [|href links IH]; intros st.
  { exists []. cbn [fold_left app length].
    split; [reflexivity|]. split; [constructor|]. split; [lia|].
    split; [reflexivity|]. intros u []. }
  cbn [fold_left].
  destruct (IH (step base ignore checking href st))
    as (new & Hreq & Hnd & Hcount & Hsub & Hnew).
  destruct (followed re_search base ignore href st) as [u|] eqn:Hf.
  - destruct (followed_spec _ _ _ _ _ Hf) as (h & -> & Hs & Hu & Hnp & Hni).
    pose proof (step_followed base ignore checking h st u Hf) as E.
    assert (Hlog : requests (log (step base ignore checking (Some h) st))
                   = u :: requests (log st)).
    { rewrite E, (proj1 (count_page_log _)), handler_requests.
      reflexivity. }
    assert (Hpc : page_count (step base ignore checking (Some h) st)
                  = S (page_count st)).
    { rewrite E, (proj2 (count_page_counters _)),
        (proj2 (handler_counters _ _ _ _)). reflexivity. }
    assert (Hpr : processed_urls (step base ignore checking (Some h) st)
                  = {[u]} ∪ processed_urls st).
    { rewrite E, (proj1 (count_page_counters _)),
        (proj1 (handler_counters _ _ _ _)). reflexivity. }
    exists (new ++ [u]). rewrite Hreq, Hlog, Hcount, Hpc, <- app_assoc.
    split; [reflexivity|]. split.
    { apply NoDup_app. split; [exact Hnd|]. split; [|repeat constructor].
      + intros x Hx Hx'. apply list_elem_of_In in Hx.
        destruct (Hnew x Hx) as (Hx1 & _). apply Hx1. rewrite Hpr.
        apply list_elem_of_In in Hx'. destruct Hx' as [<-|[]].
        apply elem_of_union_l, elem_of_singleton. reflexivity.
      + intros Hin. inversion Hin. }
    split; [rewrite length_app; cbn; lia|].
    split; [rewrite Hpr in Hsub; intros x Hx;
            apply Hsub, elem_of_union_r, Hx|].
    intros x Hx. apply in_app_or in Hx. destruct Hx as [Hx|[<-|[]]].
    + destruct (Hnew x Hx) as (Hx1 & Hx2 & g & Hg & Hrest).
      split; [rewrite Hpr in Hx1; intros Hc;
              apply Hx1, elem_of_union_r, Hc|].
      split; [exact Hx2|].
      exists g. split; [right; exact Hg | exact Hrest].
    + split; [exact Hnp|]. split; [exact Hni|].
      exists h. split; [left; reflexivity|]. split; [exact Hs | exact Hu].
  - destruct (step_not_followed base ignore checking href st Hf)
      as (Hl & _ & _ & _ & Hpc & Hpr).
    exists new. rewrite Hreq, Hl, Hcount, Hpc.
    split; [reflexivity|]. split; [exact Hnd|]. split; [reflexivity|].
    split; [intros x Hx; apply Hsub, Hpr, Hx|].
    intros x Hx. destruct (Hnew x Hx) as (Hx1 & Hx2 & g & Hg & Hrest).
    split; [intros Hc; apply Hx1, Hpr, Hc|]. split; [exact Hx2|].
    exists g. split; [right; exact Hg | exact Hrest].
Qed.

(** X7.  The requests of the walk: each one is for the URL that a link
    of the page resolves to, a link that starts with a slash and whose URL
    matches no ignore pattern; no URL is requested twice, none that was
    processed before is requested, and the page counter grows by the number
    of requests. *)
Theorem walk_requests base ignore checking links st :
  let st' := walk base ignore checking links st in
  exists new,
    requests (log st') = new ++ requests (log st)
    /\ NoDup new
    /\ page_count st' = page_count st + length new
    /\ forall u, In u new ->
         (u ∉ processed_urls st)
         /\ existsb (fun pattern => re_search pattern u) ignore = false
         /\ exists h, In (Some h) links /\ startswith "/" h = true
                      /\ u = urljoin base h.
Proof.
  cbn zeta.
  destruct (walk_new_requests base ignore checking links st)
    as (new & H1 & H2 & H3 & _ & H4).
  exists new. auto.
Qed.

(** *** The run as a whole *)

Lemma grows_refl st : grows st st.
Proof. unfold grows. auto. Qed.

Lemma grows_trans st1 st2 st3 : grows st1 st2 -> grows st2 st3 -> grows st1 st3.
Proof.
  intros (F1 & C1 & D1 & W1) (F2 & C2 & D2 & W2). unfold grows.
  split; [auto|]. split; [auto|]. split; [|auto].
  intros f. destruct (D2 f) as [E2|H2]; [|right; exact H2].
  destruct (D1 f) as [E1|H1]; [left; congruence | right; auto].
Qed.

(** A state that has the same files and records and a longer log. *)
Lemma grows_same st st' later :
  files st' = files st -> cache_data st' = cache_data st ->
  log st' = later ++ log st -> grows st st'.
Proof.
  intros Hf Hc Hl. unfold grows. rewrite Hf, Hc, Hl.
  split; [auto|]. split; [auto|]. split; [auto|].
  intros f H. unfold written_files. rewrite flat_map_app.
  apply in_or_app. right. exact H.
Qed.

Lemma handler_files_false url out checking st :
  (handler url out checking st).1 = false ->
  files (handler url out checking st).2 = files st.
Proof.
  destruct (handler_cases url out checking st)
    as [E | [(r & Hd & E) | (r & Hd & E)]]; rewrite E; cbn [fst snd].
  - reflexivity.
  - intros _. apply titled_files.
  - pose proof (reconcile_files url out r (titled url out checking r st))
      as Hf.
    destruct (reconcile now url out r (titled url out checking r st))
      as [written st'].
    cbn [fst snd]. intros ->. rewrite Hf. apply titled_files.
Qed.

Lemma handler_grows url out checking st :
  grows st (handler url out checking st).2.
Proof.
  unfold grows.
  split; [intros f; apply handler_keeps_file|].
  split; [intros u; apply handler_keeps_record|].
  rewrite handler_written_files. split.
  - intros f. destruct (decide (f = out)) as [->|Hne];
      [|left; apply handler_other_files, Hne].
    destruct (handler url out checking st).1 eqn:Hw.
    + right. left. reflexivity.
    + left. rewrite handler_files_false by exact Hw. reflexivity.
  - intros f H. apply in_or_app. right. exact H.
Qed.

Lemma count_page_grows st : grows st (count_page st).
Proof.
  unfold count_page. destruct (_ =? _)%nat.
  - apply (grows_same _ _ [SaveCache "temp_cache.json" (cache_data st)]);
      reflexivity.
  - apply (grows_same _ _ []); reflexivity.
Qed.

Lemma step_grows base ignore checking href st :
  grows st (step base ignore checking href st).
Proof.
  destruct (followed re_search base ignore href st) as [u|] eqn:Hf.
  - destruct (followed_spec _ _ _ _ _ Hf) as (h & -> & _).
    rewrite (step_followed base ignore checking h st u Hf).
    eapply grows_trans; [|apply count_page_grows].
    eapply grows_trans; [|apply handler_grows].
    apply (grows_same _ _ []); reflexivity.
  - destruct (step_not_followed base ignore checking href st Hf)
      as (Hl & Hfs & Hc & _).
    apply (grows_same _ _ []); assumption.
Qed.

Lemma walk_grows base ignore checking links st :
  grows st (walk base ignore checking links st).
Proof.
  unfold walk_links. revert st.
  induction links as [|href links IH]; intros st; [apply grows_refl|].
  cbn [fold_left]. eapply grows_trans; [apply step_grows | apply IH].
Qed.

Lemma download_entry_grows base st :
  grows st (download_entry http_get base st).2.
Proof.
  unfold download_entry.
  destruct (http_get (log st) base []) as [|r];
    [|destruct (raises_for_status r)];
    apply (grows_same _ _ [Request base []]); reflexivity.
Qed.

(** X8.  A run removes no file of the output directory and no record of
    the cache, and every file that differs at its end from what it was at
    the start was written during the run. *)
Theorem run_keeps_files_and_records
        (find_links : string -> list (option string))
        base force ignore checking (loaded : cache) (fs : gmap string node) :
  let st := (convert_gitbook_to_html http_get get_page_title find_links now
               re_search base force ignore checking loaded fs).2 in
  (forall f, is_Some (fs !! f) -> is_Some (files st !! f))
  /\ (forall u, is_Some (loaded !! u) -> is_Some (cache_data st !! u))
  /\ (forall f, files st !! f = fs !! f \/ In f (written_files (log st))).
Proof.
  cbn zeta. unfold convert_gitbook_to_html.
  set (st0 := MkState loaded _ fs ∅ 0 []).
  enough (H : grows st0
                (let '(saved_main, st) :=
                   handler base "index.html" checking st0 in
                 let '(html_content, st) :=
                   if saved_main || force then download_entry http_get base st
                   else match files st !! "index.html" with
                        | Some (File content) => (Some content, st)
                        | _ => download_entry http_get base st
                        end in
                 match html_content with
                 | None => (false, st)
                 | Some html_content =>
                     let st := walk base ignore checking
                                    (find_links html_content) st in
                     (true,
                      record (SaveCache "download_cache.json" (cache_data st))
                             st)
                 end).2).
  { destruct H as (H1 & H2 & H3 & _). auto. }
  pose proof (handler_grows base "index.html" checking st0) as H1.
  destruct (handler base "index.html" checking st0) as [saved_main st1].
  cbn [snd] in H1.
  assert (H2 : forall p : option string * State,
             grows st1 p.2 ->
             grows st0
               (match p.1 with
                | None => (false, p.2)
                | Some html_content =>
                    let st := walk base ignore checking
                                   (find_links html_content) p.2 in
                    (true,
                     record (SaveCache "download_cache.json" (cache_data st))
                            st)
                end).2).
  { intros [[html|] st2] H; cbn [fst snd] in *.
    - eapply grows_trans; [exact H1|]. eapply grows_trans; [exact H|].
      eapply grows_trans; [apply walk_grows|].
      eapply (grows_same _ _ [_]); reflexivity.
    - eapply grows_trans; [exact H1 | exact H]. }
  destruct (saved_main || force).
  - specialize (H2 (download_entry http_get base st1)
                   (download_entry_grows base st1)).
    destruct (download_entry http_get base st1). exact H2.
  - destruct (files st1 !! "index.html") as [[c|]|].
    + exact (H2 (Some c, st1) (grows_refl st1)).
    + specialize (H2 (download_entry http_get base st1)
                     (download_entry_grows base st1)).
      destruct (download_entry http_get base st1). exact H2.
    + specialize (H2 (download_entry http_get base st1)
                     (download_entry_grows base st1)).
      destruct (download_entry http_get base st1). exact H2.
Qed.

(** X9.  When the request for the entry page fails, the plain download
    that follows fails too, and no saved copy is used (the download is
    forced, or there is no readable [index.html]), the run stops there: no
    link is followed, nothing is written and the cache is not saved. *)
Theorem entry_failure_stops_the_run
        (find_links : string -> list (option string))
        (base : string) (force : bool) (ignore : list string)
        (checking : bool) (loaded : cache) (fs : gmap string node) :
  let st0 := MkState loaded
                     (if checking then scan_titles get_page_title fs
                      else (∅ : gmap string string))
                     fs ∅ 0 [] in
  let st1 := record (Request base (request_headers base st0)) st0 in
  fails http_get base st0 = true ->
  (download_entry http_get base st1).1 = None ->
  force = true \/ on_disk "index.html" fs = None ->
  convert_gitbook_to_html http_get get_page_title find_links now re_search
                          base force ignore checking loaded fs
  = (false,
     MkState loaded (title_mapping st0) fs ∅ 0
             [Request base []; Request base (request_headers base st0)]).
Proof.
  intros st0 st1 Hfail Hdl Hno. unfold convert_gitbook_to_html.
  fold st0. rewrite (handler_fails _ _ _ _ Hfail). fold st1.
  assert (E : download_entry http_get base st1
              = (None, record (Request base []) st1)).
  { revert Hdl. unfold download_entry.
    destruct (http_get (log st1) base []) as [|r]; [reflexivity|].
    destruct (raises_for_status r); [reflexivity | discriminate]. }
  destruct Hno as [-> | Hno].
  - rewrite orb_true_r, E. reflexivity.
  - cbn [orb]. destruct force; [rewrite E; reflexivity|].
    unfold on_disk in Hno. cbn [files st1 record].
    change (files st0) with fs.
    destruct (fs !! "index.html") as [[c|]|]; [discriminate | |];
      rewrite E; reflexivity.
Qed.


End Environment.

End DownloaderFacts.

(** ** The sample site *)

Module ScenarioChecks.
Import Str Url Downloader Policy DownloaderFacts Scenario.


Lemma not_modified_short_circuit_witness :
  let '(written, st') :=
    save_webpage_as_html server titles clock url_same "same.html" false
                         with_validators in
  written = false
  /\ log st' = Request url_same (request_headers url_same with_validators)
               :: log with_validators
  /\ files st' = files with_validators
  /\ cache_data st' = cache_data with_validators
  /\ title_mapping st' = title_mapping with_validators.
Proof.
  apply (not_modified_short_circuit server titles clock url_same "same.html"
           false with_validators resp_same); reflexivity.
Defined.

Lemma cache_record_update_witness :
  let '(written, st') :=
    save_webpage_as_html server titles clock url_a "a.html" false start in
  let old := record_of url_a (cache_data start) in
  let new := record_of url_a (cache_data st') in
  is_Some (cache_data st' !! url_a)
  /\ md5 new = Some (calculate_md5 (text resp_a))
  /\ etag new = refreshed (header_etag resp_a) (etag old)
  /\ last_modified new
     = refreshed (header_last_modified resp_a) (last_modified old)
  /\ last_download new
     = (if written then Some (clock (log st')) else last_download old).
Proof.
  pose proof (cache_record_update server titles clock url_a "a.html" false
                start resp_a eq_refl) as H.
  destruct (save_webpage_as_html server titles clock url_a "a.html" false
              start) as [written st'].
  apply H; reflexivity.
Defined.

Lemma duplicate_title_records_title_only_witness :
  let '(written, st') :=
    save_webpage_as_html server titles clock url_b "b.html" true
                         with_existing in
  written = false
  /\ files st' = files with_existing
  /\ title_mapping st' = title_mapping with_existing
  /\ log st' = ParseTitle (text resp_b)
               :: Request url_b (request_headers url_b with_existing)
               :: log with_existing
  /\ cache_data st' = update url_b (with_title "Intro")
                             (cache_data with_existing)
  /\ etag (record_of url_b (cache_data st'))
     = etag (record_of url_b (cache_data with_existing))
  /\ last_modified (record_of url_b (cache_data st'))
     = last_modified (record_of url_b (cache_data with_existing)).
Proof.
  apply (duplicate_title_records_title_only server titles clock url_b
           "b.html" with_existing resp_b "Intro");
    [reflexivity | discriminate | reflexivity | reflexivity | reflexivity
    | exists "existing.html"; reflexivity].
Defined.

(** C5 as stated fails: the response for [url_a] carries both
    validators, its title is known, and the record that the handler
    leaves holds the title and nothing else. *)
Lemma duplicate_title_drops_validators :
  server (log with_existing) url_a (request_headers url_a with_existing)
  = Got resp_a
  /\ header_etag resp_a = Some "abc"
  /\ titles (text resp_a) = Some "Intro"
  /\ title_mapping with_existing !! "Intro" = Some "existing.html"
  /\ (save_webpage_as_html server titles clock url_a "a.html" true
                           with_existing).1 = false
  /\ cache_data (save_webpage_as_html server titles clock url_a "a.html" true
                                      with_existing).2 !! url_a
     = Some (MkRecord None None None (Some "Intro") None).
Proof. repeat split; vm_compute; reflexivity. Qed.


Lemma transport_failure_contained_witness :
  let st' := process_link server titles clock no_match entry_url [] false
                          (Some "/gone") start in
  (forall out,
      save_webpage_as_html server titles clock url_gone out false start
      = (false, record (Request url_gone (request_headers url_gone start))
                       start))
  /\ cache_data st' = cache_data start
  /\ files st' = files start
  /\ title_mapping st' = title_mapping start
  /\ walk_links server titles clock no_match entry_url [] false
                [Some "/gone"; Some "/a"] start
     = walk_links server titles clock no_match entry_url [] false
                  [Some "/a"] st'.
Proof.
  apply (transport_failure_contained server titles clock no_match entry_url
           [] false "/gone" [Some "/a"] start url_gone);
    vm_compute; reflexivity.
Defined.

(** C9 as stated fails: the status 300 is neither a 2xx status nor 304,
    and the page is written and its record made. *)
Lemma status_300_is_written :
  server (log start) url_choices (request_headers url_choices start)
  = Got resp_choices
  /\ status_code resp_choices = 300
  /\ cache_data start !! url_choices = None
  /\ (save_webpage_as_html server titles clock url_choices "choices.html"
                           false start).1 = true
  /\ files (save_webpage_as_html server titles clock url_choices
                                 "choices.html" false start).2
     !! "choices.html" = Some (File html_choices)
  /\ is_Some (cache_data (save_webpage_as_html server titles clock url_choices
                                               "choices.html" false start).2
              !! url_choices).
Proof.
  repeat split; try (vm_compute; reflexivity).
  vm_compute. eexists. reflexivity.
Qed.

(** C7.  The entry page holds a link that starts with two slashes; the
    walk resolves it to a URL of another host and requests that URL. *)
Theorem protocol_relative_link_leaves_origin :
  let run := convert_gitbook_to_html server titles links clock no_match
                                     entry_url false [] false ∅ ∅ in
  links html_entry = [Some "//evil.example/x"]
  /\ urljoin entry_url "//evil.example/x" = url_outside
  /\ origin url_outside <> origin entry_url
  /\ run.1 = true
  /\ requested url_outside run.2 = true
  /\ files run.2 !! "x.html" = Some (File html_outside).
Proof.
  repeat split; try (vm_compute; reflexivity).
  vm_compute. discriminate.
Qed.

Lemma unchanged_page_not_rewritten_witness :
  let st1 := (save_webpage_as_html server titles clock url_a "a.html" false
                                   start).2 in
  let '(written, st2) :=
    save_webpage_as_html server titles clock url_a "a.html" false st1 in
  written = false /\ files st2 = files st1.
Proof.
  refine (unchanged_page_not_rewritten server titles clock url_a "a.html"
            false start resp_a resp_a _ _ _ _ _ _);
    try reflexivity.
  discriminate.
Defined.

Lemma entry_failure_stops_the_run_witness :
  convert_gitbook_to_html server titles links clock no_match url_gone true
                          [] false ∅ ∅
  = (false,
     MkState ∅ ∅ ∅ ∅ 0
             [Request url_gone []; Request url_gone browser_headers]).
Proof.
  refine (entry_failure_stops_the_run server titles clock no_match links
            url_gone true [] false ∅ ∅ _ _ _).
  - reflexivity.
  - reflexivity.
  - left. reflexivity.
Defined.


Lemma validators_are_sent_back_witness :
  let st' := (save_webpage_as_html server titles clock url_a "a.html" false
                                   start).2 in
  Trace.header "If-None-Match" (request_headers url_a st')
  = refreshed (header_etag resp_a)
              (Trace.header "If-None-Match" (request_headers url_a start))
  /\ Trace.header "If-Modified-Since" (request_headers url_a st')
     = refreshed (header_last_modified resp_a)
                 (Trace.header "If-Modified-Since"
                               (request_headers url_a start)).
Proof.
  refine (validators_are_sent_back server titles clock url_a "a.html" false
            start resp_a _ _ _ _); try reflexivity.
  discriminate.
Defined.

Lemma saved_title_blocks_the_page_witness :
  let '(written, st') :=
    save_webpage_as_html server titles clock url_b "existing.html" true
                         with_existing in
  written = false /\ files st' = files with_existing.
Proof.
  refine (saved_title_blocks_the_page server titles clock url_b
            "existing.html" with_existing "existing.html" html_a "Intro"
            _ _ _ _ _); vm_compute; reflexivity.
Defined.

End ScenarioChecks.

(** ** The normalizer *)

Module NormalizerFacts.
Import Chars Re Normalizer NormalForm Samples.

Lemma lower_idem c : lower (lower c) = lower c.
Proof. destruct c as [[] [] [] [] [] [] [] []]; reflexivity. Qed.

Lemma is_space_lower c : is_space (lower c) = is_space c.
Proof. destruct c as [[] [] [] [] [] [] [] []]; reflexivity. Qed.

Lemma run_space prev c t :
  run space prev (c :: t) = if is_space c then [1] else [].
Proof. reflexivity. Qed.

Lemma star_space_head fuel prev s :
  length s <= fuel ->
  head (star_loop (run space) true fuel prev s) = Some (span_len s).
Proof.
  revert prev s. induction fuel as [|fuel IH]; intros prev s Hlen.
  - destruct s; [reflexivity | simpl in Hlen; lia].
  - destruct s as [|c t]; [reflexivity|].
    cbn [star_loop span_len]. rewrite run_space.
    destruct (is_space c) eqn:Hc; [|reflexivity].
    cbn [flat_map before lookup list_lookup]. rewrite app_nil_r.
    change (drop 1 (c :: t)) with t.
    specialize (IH (Some c) t ltac:(simpl in Hlen; lia)).
    destruct (star_loop (run space) true fuel (Some c) t) as [|x l];
      [discriminate|].
    simpl in *. congruence.
Qed.

Lemma first_match_spaces prev s :
  first_match spaces prev s
  = match span_len s with O => None | S k => Some (0, S k) end.
Proof.
  unfold first_match, candidates.
  cbn [spaces group rest run flat_map before Plus]. rewrite app_nil_r.
  change (drop 0 s) with s.
  destruct s as [|c t]; [reflexivity|].
  cbn [span_len]. rewrite run_space.
  destruct (is_space c) eqn:Hc; [|reflexivity].
  cbn [flat_map map before lookup list_lookup length].
  rewrite app_nil_r. change (drop 1 (c :: t)) with t.
  pose proof (star_space_head (length t) (Some c) t (Nat.le_refl _)) as H.
  destruct (star_loop (run space) true (length t) (Some c) t) as [|x l];
    [discriminate|].
  simpl in *. congruence.
Qed.

Lemma sub_spaces_squeeze s :
  (forall prev, sub_from spaces 0 prev s = squeeze false s)
  /\ (forall prev, sub_from spaces (span_len s) prev s = squeeze true s).
Proof.
  induction s as [|c t [IH0 IH1]]; [split; reflexivity|].
  assert (H0 : forall prev, sub_from spaces 0 prev (c :: t)
                            = squeeze false (c :: t)).
  { intros prev. cbn [sub_from]. rewrite first_match_spaces.
    cbn [span_len squeeze]. destruct (is_space c).
    - cbn [repl spaces expand]. rewrite IH1. reflexivity.
    - rewrite IH0. reflexivity. }
  split; [exact H0|].
  intros prev. destruct (is_space c) eqn:Hc.
  - cbn [span_len]. rewrite Hc. cbn [sub_from squeeze]. rewrite Hc.
    apply IH1.
  - cbn [span_len]. rewrite Hc. rewrite H0. cbn [squeeze]. rewrite Hc.
    reflexivity.
Qed.

Lemma sub_spaces s : sub spaces s = squeeze false s.
Proof. apply sub_spaces_squeeze. Qed.


(** *** Substitution *)

Lemma sub_from_fixed ru prev s :
  search_from ru prev s = false -> sub_from ru 0 prev s = s.
Proof.
  revert prev. induction s as [|c t IH]; intros prev H; [reflexivity|].
  cbn [search_from sub_from] in *.
  destruct (first_match ru prev (c :: t)) as [[g [|k]]|];
    try discriminate; rewrite IH; auto.
Qed.

Lemma sub_fixed ru s : search ru s = false -> sub ru s = s.
Proof. apply sub_from_fixed. Qed.

Lemma scrub_fixed s : residue_free s = true -> scrub s = s.
Proof.
  unfold residue_free, scrub. induction scrub_rules as [|ru rules IH];
    intros H; [reflexivity|].
  cbn [forallb fold_left] in *. apply andb_true_iff in H as [H1 H2].
  apply negb_true_iff in H1. rewrite (sub_fixed _ _ H1). auto.
Qed.

Section Preserved.

Variable P : ascii -> Prop.

Lemma sub_from_Forall ru k prev s :
  keeps P ru -> Forall P s -> Forall P (sub_from ru k prev s).
Proof.
  intros Hru. revert k prev. induction s as [|c t IH]; intros k prev Hs;
    [constructor|].
  pose proof (Forall_inv_tail Hs) as Ht.
  cbn [sub_from]. destruct k as [|k]; [|auto].
  destruct (first_match ru prev (c :: t)) as [[g [|n]]|].
  - constructor; [exact (Forall_inv Hs) | auto].
  - apply Forall_app. split; [|auto].
    unfold keeps in Hru. destruct (repl ru); cbn [expand]; [exact Hru|].
    apply Forall_take, Hs.
  - constructor; [exact (Forall_inv Hs) | auto].
Qed.

Lemma scrub_Forall s :
  Forall (keeps P) scrub_rules -> Forall P s -> Forall P (scrub s).
Proof.
  unfold scrub. revert s. induction scrub_rules as [|ru rules IH];
    intros s Hr Hs; [exact Hs|].
  cbn [fold_left]. apply IH; [exact (Forall_inv_tail Hr)|].
  apply sub_from_Forall; [exact (Forall_inv Hr) | exact Hs].
Qed.

Lemma squeeze_Forall b s : P " "%char -> Forall P s -> Forall P (squeeze b s).
Proof.
  intros Hsp. revert b. induction s as [|c t IH]; intros b Hs; [constructor|].
  pose proof (Forall_inv Hs). pose proof (Forall_inv_tail Hs).
  cbn [squeeze]. destruct (is_space c), b; auto.
Qed.

Lemma lstrip_Forall s : Forall P s -> Forall P (lstrip s).
Proof.
  induction s as [|c t IH]; intros Hs; [constructor|].
  cbn [lstrip]. destruct (is_space c); [|exact Hs].
  apply IH, (Forall_inv_tail Hs).
Qed.

Lemma rstrip_Forall s : Forall P s -> Forall P (rstrip s).
Proof.
  induction s as [|c t IH]; intros Hs; [constructor|].
  pose proof (Forall_inv Hs). specialize (IH (Forall_inv_tail Hs)).
  cbn [rstrip]. destruct (rstrip t); [destruct (is_space c)|]; auto.
Qed.

End Preserved.

(** *** Whitespace *)

Lemma squeeze_tidy s b :
  tidy (squeeze b s) = true
  /\ (b = true -> starts_with_space (squeeze b s) = false).
Proof.
  revert b. induction s as [|c t IH]; intros b; [split; reflexivity|].
  cbn [squeeze]. destruct (is_space c) eqn:Hc.
  - destruct b; [apply IH|].
    destruct (IH true) as [H1 H2]. split; [|discriminate].
    cbn [tidy]. rewrite H1, (H2 eq_refl). reflexivity.
  - split.
    + cbn [tidy]. rewrite Hc. apply IH.
    + intros _. cbn [starts_with_space]. exact Hc.
Qed.

Lemma squeeze_fixed s :
  tidy s = true ->
  squeeze false s = s /\ (starts_with_space s = false -> squeeze true s = s).
Proof.
  induction s as [|c t IH]; intros H; [split; reflexivity|].
  cbn [tidy] in H. apply andb_true_iff in H as [Hc Ht].
  destruct (IH Ht) as [IH0 IH1].
  cbn [squeeze starts_with_space]. destruct (is_space c) eqn:Hsp.
  - apply andb_true_iff in Hc as [Heq Hnext].
    apply Ascii.eqb_eq in Heq. apply negb_true_iff in Hnext.
    split; [|discriminate]. rewrite (IH1 Hnext). congruence.
  - rewrite IH0. split; reflexivity.
Qed.

Lemma lstrip_tidy s : tidy s = true -> tidy (lstrip s) = true.
Proof.
  induction s as [|c t IH]; intros H; [reflexivity|].
  cbn [lstrip]. destruct (is_space c); [|exact H].
  cbn [tidy] in H. apply andb_true_iff in H as [_ H]. auto.
Qed.

Lemma rstrip_head s x l : rstrip s = x :: l -> exists l', s = x :: l'.
Proof.
  destruct s as [|c t]; [discriminate|]. cbn [rstrip].
  destruct (rstrip t); [destruct (is_space c)|]; intros H;
    try discriminate; injection H as -> _; eauto.
Qed.

Lemma rstrip_starts s :
  starts_with_space s = false -> starts_with_space (rstrip s) = false.
Proof.
  intros H. destruct (rstrip s) as [|x l] eqn:E; [reflexivity|].
  apply rstrip_head in E as [l' ->]. exact H.
Qed.

Lemma rstrip_tidy s : tidy s = true -> tidy (rstrip s) = true.
Proof.
  induction s as [|c t IH]; intros H; [reflexivity|].
  cbn [tidy] in H. apply andb_true_iff in H as [Hc Ht].
  specialize (IH Ht). cbn [rstrip].
  destruct (rstrip t) as [|x l] eqn:E.
  - destruct (is_space c) eqn:Hsp; [reflexivity|].
    cbn [tidy]. rewrite Hsp. reflexivity.
  - cbn [tidy] in *. rewrite IH, andb_true_r.
    destruct (is_space c); [|reflexivity].
    apply rstrip_head in E as [l' ->]. exact Hc.
Qed.

Lemma lstrip_starts s : starts_with_space (lstrip s) = false.
Proof.
  induction s as [|c t IH]; [reflexivity|].
  cbn [lstrip]. destruct (is_space c) eqn:Hc; [exact IH | exact Hc].
Qed.

Lemma lstrip_fixed s : starts_with_space s = false -> lstrip s = s.
Proof.
  destruct s as [|c t]; [reflexivity|]. cbn [starts_with_space lstrip].
  intros ->. reflexivity.
Qed.

Lemma rstrip_idem s : rstrip (rstrip s) = rstrip s.
Proof.
  induction s as [|c t IH]; [reflexivity|].
  cbn [rstrip]. destruct (rstrip t) as [|x l] eqn:E.
  - destruct (is_space c) eqn:Hc; [reflexivity|].
    cbn [rstrip]. rewrite Hc. reflexivity.
  - change (rstrip (c :: x :: l))
      with (match rstrip (x :: l) with
            | [] => if is_space c then [] else [c]
            | kept => c :: kept
            end).
    rewrite IH. reflexivity.
Qed.

Lemma strip_idem s : strip (strip s) = strip s.
Proof.
  unfold strip. rewrite (lstrip_fixed (rstrip (lstrip s))).
  - apply rstrip_idem.
  - apply rstrip_starts, lstrip_starts.
Qed.

Lemma strip_tidy s : tidy s = true -> tidy (strip s) = true.
Proof. intros H. apply rstrip_tidy, lstrip_tidy, H. Qed.



(** *** The normalizer *)

Lemma lowercase_lowered s : Forall lowered (lowercase s).
Proof.
  unfold lowercase. induction s; constructor; [apply lower_idem | auto].
Qed.

Lemma lowercase_fixed s : Forall lowered s -> lowercase s = s.
Proof.
  unfold lowercase. induction 1 as [|c t Hc _ IH]; [reflexivity|].
  cbn [map]. rewrite Hc. f_equal. exact IH.
Qed.

Lemma scrub_rules_keep_lowered : Forall (keeps lowered) scrub_rules.
Proof. repeat constructor. Qed.

Lemma clean_chars_lowered s : Forall lowered (clean_chars s).
Proof.
  unfold clean_chars, strip. rewrite sub_spaces.
  apply rstrip_Forall, lstrip_Forall, squeeze_Forall; [reflexivity|].
  apply scrub_Forall; [apply scrub_rules_keep_lowered|].
  apply lowercase_lowered.
Qed.

Lemma clean_chars_tidy s : tidy (clean_chars s) = true.
Proof.
  unfold clean_chars. rewrite sub_spaces. apply strip_tidy, squeeze_tidy.
Qed.

Lemma clean_chars_idem s :
  residue_free (clean_chars s) = true ->
  clean_chars (clean_chars s) = clean_chars s.
Proof.
  intros H. unfold clean_chars at 1.
  rewrite (lowercase_fixed _ (clean_chars_lowered s)), (scrub_fixed _ H).
  rewrite sub_spaces.
  rewrite (proj1 (squeeze_fixed _ (clean_chars_tidy s))).
  unfold clean_chars. apply strip_idem.
Qed.


(** *** The claims about the normalizer *)




(** C10, as amended.  Normalising a normal form gives it back whenever
    none of the patterns of the substitutions occurs in it. *)
Theorem normalizer_idempotent_on_residue_free (h : string) :
  residue_free (chars (clean_html_for_comparison h)) = true ->
  clean_html_for_comparison (clean_html_for_comparison h)
  = clean_html_for_comparison h.
Proof.
  unfold clean_html_for_comparison, chars.
  rewrite !list_ascii_of_string_of_list_ascii.
  intros H. f_equal. apply clean_chars_idem. exact H.
Qed.

Lemma normalizer_idempotent_on_residue_free_witness :
  clean_html_for_comparison (clean_html_for_comparison plain_page)
  = clean_html_for_comparison plain_page.
Proof.
  apply normalizer_idempotent_on_residue_free. vm_compute. reflexivity.
Defined.

(** C10 as stated fails: the first pass closes the gap between the date
    and the time, and the second pass removes the stamp that this
    makes. *)
Lemma normalizer_not_idempotent :
  clean_html_for_comparison spaced_stamp = "2020-01-01 10:00:00"
  /\ clean_html_for_comparison (clean_html_for_comparison spaced_stamp) = ""
  /\ clean_html_for_comparison (clean_html_for_comparison spaced_stamp)
     <> clean_html_for_comparison spaced_stamp.
Proof.
  repeat split; [vm_compute; reflexivity .. | vm_compute; discriminate].
Qed.

(** *** The shape and the size of a normal form *)

Import Measure.

Lemma lowercase_idem s : lowercase (lowercase s) = lowercase s.
Proof. apply lowercase_fixed, lowercase_lowered. Qed.

Lemma rstrip_last s c : last_char (rstrip s) = Some c -> is_space c = false.
Proof.
  unfold last_char. revert c. induction s as [|x t IH]; intros c;
    [discriminate|].
  cbn [rstrip]. destruct (rstrip t) as [|y kept] eqn:E.
  - destruct (is_space x) eqn:Hx; [discriminate|].
    cbn. intros [= <-]. exact Hx.
  - intros H. apply IH. revert H. cbn [rev].
    destruct (rev kept ++ [y]) as [|z l] eqn:E'.
    + destruct (rev kept); discriminate.
    + cbn. auto.
Qed.

Lemma strip_head s c : head (strip s) = Some c -> is_space c = false.
Proof.
  intros H. pose proof (rstrip_starts (lstrip s) (lstrip_starts s)) as Hs.
  unfold strip in H. destruct (rstrip (lstrip s)) as [|x l]; [discriminate|].
  injection H as <-. exact Hs.
Qed.

(** X11.  A normal form holds no character that lower-casing would
    change, it neither starts nor ends with whitespace, and its only
    whitespace is single blanks, none next to another. *)
Theorem normal_form_shape (h : string) :
  let n := chars (clean_html_for_comparison h) in
  Forall lowered n
  /\ tidy n = true
  /\ (forall c, head n = Some c -> is_space c = false)
  /\ (forall c, last_char n = Some c -> is_space c = false).
Proof.
  cbn zeta. unfold clean_html_for_comparison, chars.
  rewrite list_ascii_of_string_of_list_ascii.
  split; [apply clean_chars_lowered|]. split; [apply clean_chars_tidy|].
  unfold clean_chars. split; intros c.
  - apply strip_head.
  - unfold strip. apply rstrip_last.
Qed.

(** X12.  The normal form, and so the digest, of a page does not depend
    on the case of its letters. *)
Theorem normal_form_ignores_case (h : string) :
  clean_html_for_comparison (Str.lower h) = clean_html_for_comparison h
  /\ Downloader.calculate_md5 (Str.lower h) = Downloader.calculate_md5 h.
Proof.
  assert (E : clean_html_for_comparison (Str.lower h)
              = clean_html_for_comparison h).
  { unfold clean_html_for_comparison, Str.lower, clean_chars.
    rewrite list_ascii_of_string_of_list_ascii.
    change (map lower (list_ascii_of_string h))
      with (lowercase (list_ascii_of_string h)).
    rewrite lowercase_idem. reflexivity. }
  split; [exact E|]. unfold Downloader.calculate_md5. rewrite E. reflexivity.
Qed.













(** *** A page of whitespace *)

Lemma all_chars_complete c : In c all_chars.
Proof.
  unfold all_chars. rewrite <- (ascii_nat_embedding c).
  apply in_map, in_seq. pose proof (nat_ascii_bounded c). lia.
Qed.

Lemma space_not_word c : is_space c = true -> is_word c = false.
Proof.
  assert (H : forallb (fun c => negb (is_space c && is_word c)) all_chars
              = true) by (vm_compute; reflexivity).
  rewrite forallb_forall in H. specialize (H c (all_chars_complete c)).
  intros Hs. rewrite Hs in H. destruct (is_word c); [discriminate|].
  reflexivity.
Qed.

Lemma blank_drop n s : blank s -> blank (drop n s).
Proof. apply Forall_drop. Qed.

Lemma blank_before prev s n :
  blank s -> wordy prev = false -> wordy (before prev s n) = false.
Proof.
  intros Hs Hp. unfold before. destruct n as [|k]; [exact Hp|].
  destruct (s !! k) as [c|] eqn:E; [|exact Hp].
  cbn [wordy]. apply space_not_word.
  unfold blank in Hs. rewrite Forall_lookup in Hs. exact (Hs k c E).
Qed.

Lemma flat_map_nil {A B} (f : A -> list B) l :
  (forall x, In x l -> f x = []) -> flat_map f l = [].
Proof.
  induction l as [|x l IH]; intros H; [reflexivity|].
  cbn [flat_map]. rewrite (H x), IH; [reflexivity | | left; reflexivity].
  intros y Hy. apply H. right. exact Hy.
Qed.

Lemma needs_ink_run r :
  needs_ink r = true ->
  forall prev s, blank s -> wordy prev = false -> run r prev s = [].
Proof.
  induction r as [|c|p|a IHa b IHb|a IHa b IHb|g r IH| |r IH];
    cbn [needs_ink]; intros Hi prev s Hs Hp; try discriminate; cbn [run].
  - destruct s as [|x t]; [reflexivity|].
    destruct (Ascii.eqb_spec x c) as [->|_]; [|reflexivity].
    rewrite (Forall_inv Hs) in Hi. discriminate.
  - destruct s as [|x t]; [reflexivity|].
    rewrite forallb_forall in Hi. specialize (Hi x (all_chars_complete x)).
    rewrite (Forall_inv Hs) in Hi. destruct (p x); [discriminate|].
    reflexivity.
  - destruct (needs_ink a) eqn:Ha.
    + rewrite (IHa eq_refl prev s Hs Hp). reflexivity.
    + cbn [orb] in Hi. apply flat_map_nil. intros n _.
      rewrite (IHb Hi); [reflexivity | apply blank_drop, Hs
                         | apply blank_before; assumption].
  - apply andb_prop in Hi. destruct Hi as [Ha Hb].
    rewrite (IHa Ha prev s Hs Hp), (IHb Hb prev s Hs Hp). reflexivity.
  - rewrite Hp. destruct s as [|x t]; [reflexivity|].
    cbn [head wordy]. rewrite (space_not_word x (Forall_inv Hs)).
    reflexivity.
Qed.

Lemma needs_ink_search ru :
  needs_ink (group ru) || needs_ink (rest ru) = true ->
  forall s prev, blank s -> wordy prev = false ->
                 search_from ru prev s = false.
Proof.
  intros Hi. induction s as [|c t IH]; intros prev Hs Hp; [reflexivity|].
  cbn [search_from].
  assert (E : first_match ru prev (c :: t) = None).
  { unfold first_match, candidates.
    destruct (needs_ink (group ru)) eqn:Hg.
    - rewrite (needs_ink_run _ Hg prev _ Hs Hp). reflexivity.
    - cbn [orb] in Hi. rewrite flat_map_nil; [reflexivity|].
      intros g _.
      rewrite (needs_ink_run _ Hi); [reflexivity | apply blank_drop, Hs
                                     | apply blank_before; assumption]. }
  rewrite E. apply IH; [exact (Forall_inv_tail Hs)|].
  cbn [wordy]. apply space_not_word, (Forall_inv Hs).
Qed.

Lemma scrub_rules_need_ink :
  forallb (fun ru => needs_ink (group ru) || needs_ink (rest ru)) scrub_rules
  = true.
Proof. vm_compute. reflexivity. Qed.

Lemma blank_residue_free s : blank s -> residue_free s = true.
Proof.
  intros Hs. unfold residue_free. pose proof scrub_rules_need_ink as H.
  rewrite forallb_forall in *. intros ru Hru.
  unfold search. rewrite (needs_ink_search ru (H ru Hru) s None Hs eq_refl).
  reflexivity.
Qed.

Lemma lstrip_blank s : blank s -> lstrip s = [].
Proof.
  induction 1 as [|c t Hc _ IH]; [reflexivity|].
  cbn [lstrip]. rewrite Hc. exact IH.
Qed.

(** X14.  A page that is empty or made of whitespace only has the empty
    normal form, and so the digest of the empty text. *)
Theorem blank_page_normal_form (h : string) :
  forallb is_space (chars h) = true ->
  clean_html_for_comparison h = ""
  /\ Downloader.calculate_md5 h = "d41d8cd98f00b204e9800998ecf8427e".
Proof.
  intros H.
  assert (E : clean_html_for_comparison h = "").
  { unfold clean_html_for_comparison, clean_chars, strip.
    assert (Hb : blank (lowercase (list_ascii_of_string h))).
    { unfold blank, lowercase. rewrite Forall_map.
      rewrite forallb_forall in H. apply Forall_forall. intros c Hc.
      cbn. rewrite is_space_lower. apply H, list_elem_of_In, Hc. }
    rewrite (scrub_fixed _ (blank_residue_free _ Hb)), sub_spaces.
    rewrite lstrip_blank; [reflexivity|].
    apply squeeze_Forall; [reflexivity | exact Hb]. }
  split; [exact E|]. unfold Downloader.calculate_md5. rewrite E.
  vm_compute. reflexivity.
Qed.

Lemma blank_page_normal_form_witness :
  clean_html_for_comparison blank_page = ""
  /\ Downloader.calculate_md5 blank_page = "d41d8cd98f00b204e9800998ecf8427e".
Proof. apply blank_page_normal_form. vm_compute. reflexivity. Defined.

End NormalizerFacts.

(** ** File names *)

Module NamingFacts.
Import Str Url Downloader Naming Scenario.

Lemma first_n_length n s :
  n <= String.length s -> String.length (first_n n s) = n.
Proof.
  revert s. induction n as [|n IH]; intros [|c s] H; cbn in *;
    try reflexivity; try lia.
  f_equal. apply IH. lia.
Qed.

Lemma append_inj (a b c d : string) :
  String.length a = String.length c ->
  a +:+ b = c +:+ d -> a = c /\ b = d.
Proof.
  revert c. induction a as [|x a IH]; intros [|y c] Hlen H; cbn in *;
    try discriminate.
  - split; [reflexivity | exact H].
  - injection H as -> H. destruct (IH c) as [-> ->]; [lia | exact H |].
    split; reflexivity.
Qed.

Lemma long_name p :
  100 < String.length (safe_filename p) ->
  filename_of_path p
  = first_n 90 (safe_filename p) +:+ "_" +:+ path_hash p.
Proof.
  intros H. unfold filename_of_path, safe_filename, path_hash, safe_path in *.
  destruct (Nat.ltb_spec 100
              (String.length
                 (replace_char "/" "_"
                    (if nonempty (lstrip_char "/" p)
                     then lstrip_char "/" p else "index")))); [reflexivity|lia].
Qed.

Lemma short_name p :
  String.length (safe_filename p) <= 100 ->
  filename_of_path p = safe_filename p.
Proof.
  intros H. unfold filename_of_path, safe_filename, safe_path in *.
  destruct (Nat.ltb_spec 100
              (String.length
                 (replace_char "/" "_"
                    (if nonempty (lstrip_char "/" p)
                     then lstrip_char "/" p else "index")))); [lia|reflexivity].
Qed.

Lemma replace_char_length c d s :
  String.length (replace_char c d s) = String.length s.
Proof. induction s; cbn; congruence. Qed.

Lemma replace_char_clean c d s :
  c <> d -> find_any [c] (replace_char c d s) = None.
Proof.
  intros Hcd. induction s as [|x s IH]; [reflexivity|]. cbn.
  destruct (Ascii.eqb_spec x c) as [->|Hx].
  - destruct (Ascii.eqb_spec d c) as [->|_]; [congruence|].
    cbn. rewrite IH. reflexivity.
  - destruct (Ascii.eqb_spec x c) as [->|_]; [congruence|].
    cbn. rewrite IH. reflexivity.
Qed.

(** C8, as amended.  The file name of a URL is a function of its path
    alone: the path without its leading slashes, [index] when nothing is
    left, with every slash replaced by an underscore, so that the name
    holds no slash; a name of more than 100 characters is cut to its first
    90, followed by an underscore and the first ten digits of the MD5
    digest of the path.  Two long paths get the same name exactly when
    their names agree on the first 90 characters and the ten digits of
    their digests coincide. *)
Theorem filename_derivation (s p q : string) :
  String.length (safe_filename s) <= 100 ->
  100 < String.length (safe_filename p) ->
  100 < String.length (safe_filename q) ->
  filename_of_path "" = "index"
  /\ find_any ["/"%char] (safe_filename s) = None
  /\ filename_of_path s = safe_filename s
  /\ filename_of_path p
     = first_n 90 (safe_filename p) +:+ "_" +:+ path_hash p
  /\ (filename_of_path p = filename_of_path q
      <-> first_n 90 (safe_filename p) = first_n 90 (safe_filename q)
          /\ path_hash p = path_hash q).
Proof.
  intros Hs Hp Hq.
  split; [reflexivity|].
  split; [apply replace_char_clean; discriminate|].
  split; [apply short_name, Hs|]. split; [apply long_name, Hp|].
  rewrite (long_name p Hp), (long_name q Hq). split.
  - intros H. apply append_inj in H.
    + destruct H as [H1 H2]. split; [exact H1|].
      cbn in H2. injection H2 as H2. exact H2.
    + rewrite !first_n_length; lia.
  - intros [-> ->]. reflexivity.
Qed.

Lemma filename_derivation_witness :
  filename_of_path "" = "index"
  /\ find_any ["/"%char] (safe_filename short_path) = None
  /\ filename_of_path short_path = safe_filename short_path
  /\ filename_of_path long_path_1
     = first_n 90 (safe_filename long_path_1) +:+ "_"
       +:+ path_hash long_path_1
  /\ (filename_of_path long_path_1 = filename_of_path long_path_2
      <-> first_n 90 (safe_filename long_path_1)
          = first_n 90 (safe_filename long_path_2)
          /\ path_hash long_path_1 = path_hash long_path_2).
Proof.
  apply (filename_derivation short_path long_path_1 long_path_2);
    vm_compute; lia.
Defined.

(** C8 as stated fails: the two paths are longer than the threshold and
    differ only after the ninetieth character, and the two URLs get the
    same file name. *)
Lemma truncated_names_collide :
  long_url_1 <> long_url_2
  /\ path (urlparse long_url_1 "") = long_path_1
  /\ path (urlparse long_url_2 "") = long_path_2
  /\ String.length (safe_filename long_path_1) = 102
  /\ String.length (safe_filename long_path_2) = 102
  /\ first_n 90 (safe_filename long_path_1)
     = first_n 90 (safe_filename long_path_2)
  /\ safe_filename long_path_1 <> safe_filename long_path_2
  /\ output_filename_of long_url_1 = output_filename_of long_url_2.
Proof.
  repeat split; try (vm_compute; reflexivity); vm_compute; discriminate.
Qed.

End NamingFacts.

(** ** Digests and the names made of them *)

Module DigestFacts.
Import Chars Str Url Downloader Naming NamingFacts.

Lemma to_le_length n x : length (MD5.to_le n x) = n.
Proof.
  revert x. induction n as [|n IH]; intros x; [reflexivity|].
  cbn [MD5.to_le length]. rewrite IH. reflexivity.
Qed.

Lemma to_le_bytes n x : Forall (fun b => (b < 256)%N) (MD5.to_le n x).
Proof.
  revert x. induction n as [|n IH]; intros x; [constructor|].
  cbn [MD5.to_le]. constructor; [|apply IH].
  change 255%N with (N.ones 8). rewrite N.land_ones.
  apply N.mod_lt. discriminate.
Qed.

Lemma digest_bytes msg :
  length (MD5.digest msg) = 16
  /\ Forall (fun b => (b < 256)%N) (MD5.digest msg).
Proof.
  unfold MD5.digest.
  destruct (fold_left MD5.compress (MD5.blocks msg) MD5.init)
    as [[[a b] c] d].
  split.
  - rewrite !length_app, !to_le_length. reflexivity.
  - repeat (apply Forall_app; split); apply to_le_bytes.
Qed.

Lemma hex_digit_hex x : (x < 16)%N -> is_hex (MD5.hex_digit x) = true.
Proof.
  intros H.
  assert (Hall : forallb (fun n => is_hex (MD5.hex_digit (N.of_nat n)))
                         (seq 0 16) = true) by (vm_compute; reflexivity).
  rewrite forallb_forall in Hall.
  rewrite <- (N2Nat.id x). apply Hall, in_seq. lia.
Qed.

Lemma hex_byte_hex b :
  (b < 256)%N -> Forall (fun c => is_hex c = true) (MD5.hex_byte b).
Proof.
  intros H. unfold MD5.hex_byte. repeat constructor; apply hex_digit_hex.
  - rewrite N.shiftr_div_pow2. apply N.Div0.div_lt_upper_bound. exact H.
  - change 15%N with (N.ones 4). rewrite N.land_ones.
    apply N.mod_lt. discriminate.
Qed.

Lemma hex_bytes_chars l :
  Forall (fun b => (b < 256)%N) l ->
  length (flat_map MD5.hex_byte l) = 2 * length l
  /\ Forall (fun c => is_hex c = true) (flat_map MD5.hex_byte l).
Proof.
  induction 1 as [|b l Hb _ [IH1 IH2]]; [split; [reflexivity|constructor]|].
  cbn [flat_map]. split.
  - rewrite length_app. cbn [MD5.hex_byte length]. lia.
  - apply Forall_app. split; [apply hex_byte_hex, Hb | exact IH2].
Qed.

Lemma hexdigest_chars msg :
  length (flat_map MD5.hex_byte (MD5.digest msg)) = 32
  /\ Forall (fun c => is_hex c = true)
            (flat_map MD5.hex_byte (MD5.digest msg)).
Proof.
  destruct (digest_bytes msg) as [Hl Hb].
  destruct (hex_bytes_chars _ Hb) as [H1 H2]. rewrite Hl in H1.
  split; [exact H1 | exact H2].
Qed.

Lemma md5_hex_format s :
  String.length (MD5.md5_hex s) = 32
  /\ Forall (fun c => is_hex c = true)
            (list_ascii_of_string (MD5.md5_hex s)).
Proof.
  unfold MD5.md5_hex, MD5.hexdigest.
  rewrite list_ascii_of_string_of_list_ascii.
  destruct (hexdigest_chars (MD5.utf8 s)) as [Hl Hc].
  split; [|exact Hc].
  clear Hc. revert Hl. generalize (flat_map MD5.hex_byte
                                     (MD5.digest (MD5.utf8 s))).
  intros l <-. induction l; cbn; congruence.
Qed.

(** X15.  The digest of a page is made of 32 characters, each a digit or
    a letter from a to f. *)
Theorem digest_format (content : string) :
  String.length (calculate_md5 content) = 32
  /\ Forall (fun c => is_hex c = true)
            (list_ascii_of_string (calculate_md5 content)).
Proof.
  unfold calculate_md5.
  destruct (md5_hex_format (Normalizer.clean_html_for_comparison content))
    as [Hlen Hhex].
  split; [exact Hlen | exact Hhex].
Qed.

Lemma find_any_append cs a b :
  find_any cs a = None -> find_any cs b = None ->
  find_any cs (a +:+ b) = None.
Proof.
  intros Ha Hb. induction a as [|x a IH]; [exact Hb|].
  change (String x a +:+ b) with (String x (a +:+ b)).
  cbn [find_any] in *.
  destruct (existsb (Ascii.eqb x) cs); [discriminate|].
  destruct (find_any cs a); [discriminate|]. rewrite IH; reflexivity.
Qed.

Lemma find_any_first_n cs n s :
  find_any cs s = None -> find_any cs (first_n n s) = None.
Proof.
  revert s. induction n as [|n IH]; intros [|x s] H; try reflexivity.
  cbn [find_any first_n] in *.
  destruct (existsb (Ascii.eqb x) cs); [discriminate|].
  destruct (find_any cs s) eqn:E; [discriminate|].
  rewrite (IH s E). reflexivity.
Qed.

Lemma hex_no_slash s :
  Forall (fun c => is_hex c = true) (list_ascii_of_string s) ->
  find_any ["/"%char] s = None.
Proof.
  induction s as [|x s IH]; intros H; [reflexivity|].
  cbn [list_ascii_of_string] in H. cbn [find_any existsb].
  destruct (Ascii.eqb_spec x "/") as [->|_].
  - pose proof (Forall_inv H) as Hx. discriminate.
  - cbn [orb]. rewrite (IH (Forall_inv_tail H)). reflexivity.
Qed.

Lemma append_length (a b : string) :
  String.length (a +:+ b) = String.length a + String.length b.
Proof.
  induction a as [|x a IH]; [reflexivity|].
  change (String x a +:+ b) with (String x (a +:+ b)).
  cbn [String.length]. rewrite IH. reflexivity.
Qed.

Lemma from_n_append (a b : string) : from_n (String.length a) (a +:+ b) = b.
Proof.
  induction a as [|x a IH]; [destruct b; reflexivity|].
  change (String x a +:+ b) with (String x (a +:+ b)). exact IH.
Qed.

Lemma safe_filename_nonempty p : 1 <= String.length (safe_filename p).
Proof.
  unfold safe_filename, safe_path. rewrite replace_char_length.
  destruct (lstrip_char "/" p); cbn; lia.
Qed.

(** The name of a path has no slash and is between 1 and 101 characters
    long. *)
Lemma filename_of_path_plain p :
  find_any ["/"%char] (filename_of_path p) = None
  /\ 1 <= String.length (filename_of_path p) <= 101.
Proof.
  pose proof (safe_filename_nonempty p) as Hne.
  assert (Hclean : find_any ["/"%char] (safe_filename p) = None)
    by (apply replace_char_clean; discriminate).
  destruct (Nat.le_gt_cases (String.length (safe_filename p)) 100)
    as [Hs|Hl].
  - rewrite (short_name p Hs). split; [exact Hclean | lia].
  - rewrite (long_name p Hl).
    destruct (md5_hex_format (safe_path p)) as [Hlen Hhex].
    split.
    + apply find_any_append; [apply find_any_first_n, Hclean|].
      apply (find_any_append _ "_"); [reflexivity|].
      apply find_any_first_n, hex_no_slash, Hhex.
    + rewrite append_length, first_n_length by lia.
      rewrite (append_length "_"). unfold path_hash.
      rewrite first_n_length by lia. cbn [String.length]. lia.
Qed.

(** X16.  The file name made for a URL holds no slash, so the file lies
    in the output directory itself; it ends in [.html] and has between 6
    and 106 characters. *)
Theorem output_filename_is_a_plain_name (url : string) :
  let name := output_filename_of url in
  find_any ["/"%char] name = None
  /\ 6 <= String.length name <= 106
  /\ endswith ".html" name = true.
Proof.
  cbn zeta. unfold output_filename_of.
  destruct (filename_of_path_plain (path (urlparse url ""))) as [Hs Hl].
  split; [apply find_any_append; [exact Hs | reflexivity]|].
  split; [rewrite append_length; cbn [String.length]; lia|].
  unfold endswith. rewrite append_length. cbn [String.length].
  replace (String.length (filename_of_path (path (urlparse url ""))) + 5 - 5)
    with (String.length (filename_of_path (path (urlparse url "")))) by lia.
  rewrite from_n_append. reflexivity.
Qed.

End DigestFacts.

(** ** The title listing *)

Module ListerFacts.
Import Str Url Downloader Trace Lister.

Section Environment.

Variable http_get : list event -> string -> headers -> fetch_result.
Variable get_page_title : string -> option string.
Variable find_links : string -> list (option string).
Variable re_search : string -> string -> bool.






End Environment.

End ListerFacts.

(** ** Links and origins *)

Module UrlFacts.
Import Chars Str Url Links.

Lemma app_cons x (a b : string) : String x a +:+ b = String x (a +:+ b).
Proof. reflexivity. Qed.

Lemma app_empty (b : string) : "" +:+ b = b.
Proof. reflexivity. Qed.

Lemma app_empty_r (a : string) : a +:+ "" = a.
Proof.
  induction a as [|x a IH]; [reflexivity|].
  rewrite app_cons, IH. reflexivity.
Qed.

Lemma app_assoc_s (a b c : string) : (a +:+ b) +:+ c = a +:+ (b +:+ c).
Proof.
  induction a as [|x a IH]; [reflexivity|]. rewrite !app_cons, IH.
  reflexivity.
Qed.

Lemma first_n_app (a b : string) : first_n (String.length a) (a +:+ b) = a.
Proof.
  induction a as [|x a IH]; [destruct b; reflexivity|].
  rewrite app_cons. cbn [String.length first_n]. rewrite IH. reflexivity.
Qed.

Lemma from_n_app (a b : string) : from_n (String.length a) (a +:+ b) = b.
Proof.
  induction a as [|x a IH]; [destruct b; reflexivity|].
  rewrite app_cons. exact IH.
Qed.

(** The text before the first occurrence holds none. *)
Lemma find_any_before cs s i :
  find_any cs s = Some i -> find_any cs (first_n i s) = None.
Proof.
  revert i. induction s as [|x s IH]; intros i H; [discriminate|].
  cbn [find_any] in H. destruct (existsb (Ascii.eqb x) cs) eqn:E.
  - injection H as <-. reflexivity.
  - destruct (find_any cs s) as [j|]; [|discriminate].
    injection H as <-. cbn [first_n find_any]. rewrite E, (IH j eq_refl).
    reflexivity.
Qed.

Lemma split_netloc_clean url :
  find_any ["/"; "?"; "#"]%char (split_netloc url).1 = None.
Proof.
  unfold split_netloc.
  destruct (find_any _ (from_n 2 url)) as [i|] eqn:E; cbn [fst].
  - apply find_any_before, E.
  - exact E.
Qed.

(** The host that [urlparse] finds holds none of the characters that
    end a host. *)
Lemma netloc_clean url d :
  find_any ["/"; "?"; "#"]%char (netloc (urlparse url d)) = None.
Proof.
  unfold urlparse.
  destruct (split_scheme url) as [[sch rest]|].
  - pose proof (split_netloc_clean rest) as H.
    destruct (startswith "//" rest);
      [destruct (split_netloc rest) as [net r]|];
      destruct (split_first "#" _) as [[? ?]|];
      destruct (split_first "?" _) as [[? ?]|];
      destruct (mem sch uses_params);
      try destruct (split_params _); first [exact H | reflexivity].
  - pose proof (split_netloc_clean url) as H.
    destruct (startswith "//" url);
      [destruct (split_netloc url) as [net r]|];
      destruct (split_first "#" _) as [[? ?]|];
      destruct (split_first "?" _) as [[? ?]|];
      destruct (mem d uses_params);
      try destruct (split_params _); first [exact H | reflexivity].
Qed.

(** A reference that starts with one slash has no scheme and no host of
    its own. *)
Lemma urlparse_rooted h d :
  startswith "/" h = true -> startswith "//" h = false ->
  scheme (urlparse h d) = d /\ netloc (urlparse h d) = "".
Proof.
  intros H1 H2. unfold urlparse.
  assert (E : split_scheme h = None).
  { destruct h as [|c t]; [reflexivity|].
    unfold startswith in H1. cbn [String.prefix] in H1.
    destruct (ascii_dec "/" c) as [<-|]; [reflexivity | discriminate]. }
  rewrite E, H2.
  destruct (split_first "#" h) as [[? ?]|];
    destruct (split_first "?" _) as [[? ?]|];
    destruct (mem d uses_params);
    try destruct (split_params _); split; reflexivity.
Qed.

(** The host of [//host] followed by a path, a query or a fragment. *)
Lemma find_any_headed cs net t :
  find_any cs net = None ->
  match t with
  | EmptyString => True
  | String c _ => existsb (Ascii.eqb c) cs = true
  end ->
  find_any cs (net +:+ t)
  = match t with
    | EmptyString => None
    | String _ _ => Some (String.length net)
    end.
Proof.
  intros Hn Ht. induction net as [|x net IH].
  - rewrite app_empty. destruct t as [|c t]; [reflexivity|].
    cbn [find_any]. rewrite Ht. reflexivity.
  - rewrite app_cons. cbn [find_any] in *.
    destruct (existsb (Ascii.eqb x) cs); [discriminate|].
    destruct (find_any cs net); [discriminate|]. rewrite (IH eq_refl).
    destruct t; reflexivity.
Qed.

Lemma split_netloc_app net t :
  find_any ["/"; "?"; "#"]%char net = None -> headed t = true ->
  split_netloc ("//" +:+ net +:+ t) = (net, t).
Proof.
  intros Hn Ht. unfold split_netloc.
  change (from_n 2 ("//" +:+ net +:+ t)) with (net +:+ t).
  rewrite (find_any_headed _ net t Hn).
  - destruct t as [|c t]; [rewrite app_empty_r; reflexivity|].
    rewrite first_n_app, from_n_app. reflexivity.
  - destruct t as [|c t]; [exact I|]. exact Ht.
Qed.

Lemma startswith_slashes rest : startswith "//" ("//" +:+ rest) = true.
Proof.
  unfold startswith. rewrite !app_cons, app_empty. cbn [String.prefix].
  destruct (ascii_dec "/" "/") as [_|H]; [|destruct (H eq_refl)].
  destruct rest; reflexivity.
Qed.

Lemma split_scheme_web sch rest :
  web sch = true -> split_scheme (sch +:+ ":" +:+ rest) = Some (sch, rest).
Proof.
  unfold web. intros H. apply orb_prop in H.
  destruct H as [H|H]; apply String.eqb_eq in H; subst sch; reflexivity.
Qed.

(** The origin of a web address that is put together from its parts. *)
Lemma origin_assembled sch net t :
  web sch = true -> find_any ["/"; "?"; "#"]%char net = None ->
  headed t = true ->
  origin (sch +:+ ":" +:+ "//" +:+ net +:+ t) = (sch, net).
Proof.
  intros Hw Hn Ht. unfold origin, urlparse.
  rewrite (split_scheme_web sch _ Hw).
  rewrite startswith_slashes.
  rewrite (split_netloc_app net t Hn Ht).
  destruct (split_first "#" t) as [[? ?]|];
    destruct (split_first "?" _) as [[? ?]|];
    destruct (mem sch uses_params);
    try destruct (split_params _); reflexivity.
Qed.

Lemma headed_app a b :
  headed a = true -> headed b = true -> headed (a +:+ b) = true.
Proof.
  intros Ha Hb. destruct a as [|x a]; [rewrite app_empty; exact Hb|].
  rewrite app_cons. exact Ha.
Qed.

(** What [urlunparse] makes of a web address with a host. *)
Lemma urlunparse_web sch net p prm q f :
  web sch = true -> nonempty net = true ->
  exists t,
    headed t = true
    /\ urlunparse (Parts sch net p prm q f)
       = sch +:+ ":" +:+ "//" +:+ net +:+ t.
Proof.
  intros Hw Hnet. unfold urlunparse. cbn [scheme netloc path params query
                                             fragment].
  rewrite Hnet. cbn [orb].
  assert (Hs : nonempty sch = true).
  { unfold web in Hw. destruct sch; [discriminate | reflexivity]. }
  rewrite Hs.
  set (url := if nonempty prm then p +:+ ";" +:+ prm else p).
  set (r := if nonempty url && negb (startswith "/" url)
            then "/" +:+ url else url).
  assert (Hr : headed r = true).
  { subst r. destruct url as [|c url]; [reflexivity|]. cbn [nonempty andb].
    destruct (startswith "/" (String c url)) eqn:E; cbn [negb];
      [|reflexivity].
    unfold startswith in E. cbn [String.prefix] in E.
    destruct (ascii_dec "/" c) as [<-|]; [reflexivity | discriminate]. }
  exists (r +:+ (if nonempty q then "?" +:+ q else "")
            +:+ (if nonempty f then "#" +:+ f else "")).
  split.
  - apply headed_app; [exact Hr|].
    destruct (nonempty q); [reflexivity|]. rewrite app_empty.
    destruct (nonempty f); reflexivity.
  - destruct (nonempty q), (nonempty f);
      rewrite ?app_assoc_s, ?app_empty, ?app_empty_r; reflexivity.
Qed.

Lemma origin_urlunparse sch net p prm q f :
  web sch = true -> nonempty net = true ->
  find_any ["/"; "?"; "#"]%char net = None ->
  origin (urlunparse (Parts sch net p prm q f)) = (sch, net).
Proof.
  intros Hw Hnet Hn.
  destruct (urlunparse_web sch net p prm q f Hw Hnet) as (t & Ht & ->).
  apply origin_assembled; assumption.
Qed.

Lemma web_relative sch :
  web sch = true -> mem sch uses_relative = true /\ mem sch uses_netloc = true.
Proof.
  unfold web. intros H. apply orb_prop in H.
  destruct H as [H|H]; apply String.eqb_eq in H; subst sch;
    split; reflexivity.
Qed.

(** What [urljoin] makes of a rooted reference: the scheme and the host
    of the site with a path, a query and a fragment. *)
Lemma urljoin_rooted (base h : string) :
  site base = true -> rooted h = true ->
  exists p prm q f,
    urljoin base h
    = urlunparse (Parts (scheme (urlparse base "")) (netloc (urlparse base ""))
                        p prm q f).
Proof.
  unfold site, rooted. intros Hb Hh.
  apply andb_prop in Hb. destruct Hb as [Hb _].
  apply andb_prop in Hb. destruct Hb as [Hb _].
  apply andb_prop in Hb. destruct Hb as [Hw Hnet].
  apply andb_prop in Hh. destruct Hh as [Hh _].
  apply andb_prop in Hh. destruct Hh as [H1 H2].
  apply negb_true_iff in H2.
  assert (Hbase : nonempty base = true).
  { destruct base; [discriminate Hw | reflexivity]. }
  assert (Hhn : nonempty h = true).
  { destruct h; [discriminate H1 | reflexivity]. }
  unfold urljoin. rewrite Hbase, Hhn. cbn [negb].
  destruct (urlparse_rooted h (scheme (urlparse base "")) H1 H2)
    as [Hs Hn].
  destruct (web_relative _ Hw) as [Hrel Hnl].
  destruct (urlparse base "") as [sb nb pb prb qb fb].
  cbn [scheme netloc path params query fragment] in *.
  destruct (urlparse h sb) as [su nu pu pru qu fu].
  cbn [scheme netloc path params query fragment] in *. subst su nu.
  rewrite String.eqb_refl, Hrel, Hnl. cbn [negb orb andb nonempty].
  destruct (negb (nonempty pu) && negb (nonempty pru)); eauto.
Qed.

Lemma site_parts base :
  site base = true ->
  web (scheme (urlparse base "")) = true
  /\ nonempty (netloc (urlparse base "")) = true.
Proof.
  unfold site. intros Hb.
  apply andb_prop in Hb. destruct Hb as [Hb _].
  apply andb_prop in Hb. destruct Hb as [Hb _].
  apply andb_prop in Hb. exact Hb.
Qed.

(** X19.  A reference that starts with one slash, not with two, resolves
    against the address of a site to a URL of the same scheme and host. *)
Theorem rooted_link_stays_on_site (base h : string) :
  site base = true -> rooted h = true ->
  origin (urljoin base h) = origin base.
Proof.
  intros Hb Hh.
  destruct (urljoin_rooted base h Hb Hh) as (p & prm & q & f & ->).
  destruct (site_parts base Hb) as [Hw Hnet].
  apply origin_urlunparse; [exact Hw | exact Hnet | apply netloc_clean].
Qed.

End UrlFacts.

(** ** The walk and the site *)

Module SiteFacts.
Import Str Url Downloader Policy Trace Links.

Section Environment.

Variable http_get : list event -> string -> headers -> fetch_result.
Variable get_page_title : string -> option string.
Variable now : list event -> string.
Variable re_search : string -> string -> bool.

(** X20.  When no link of the page starts with two slashes (and none
    holds a tab or a line break), every request of the walk is for a URL of
    the scheme and host of the site. *)
Theorem walk_stays_on_site base ignore checking links st :
  site base = true ->
  (forall h, In (Some h) links -> startswith "/" h = true ->
             rooted h = true) ->
  exists new,
    requests (log (walk_links http_get get_page_title now re_search base
                              ignore checking links st))
    = new ++ requests (log st)
    /\ forall u, In u new -> origin u = origin base.
Proof.
  intros Hsite Hlinks.
  destruct (DownloaderFacts.walk_new_requests http_get get_page_title now
              re_search base ignore checking links st)
    as (new & Hreq & _ & _ & _ & Hnew).
  exists new. split; [exact Hreq|].
  intros u Hu. destruct (Hnew u Hu) as (_ & _ & h & Hin & Hs & ->).
  destruct (UrlFacts.urljoin_rooted base h Hsite (Hlinks h Hin Hs))
    as (p & prm & q & f & ->).
  destruct (UrlFacts.site_parts base Hsite) as [Hw Hnet].
  apply UrlFacts.origin_urlunparse;
    [exact Hw | exact Hnet | apply UrlFacts.netloc_clean].
Qed.

End Environment.

Lemma rooted_link_stays_on_site_witness :
  origin (urljoin Scenario.entry_url "/a") = origin Scenario.entry_url.
Proof.
  apply UrlFacts.rooted_link_stays_on_site; vm_compute; reflexivity.
Defined.

Lemma walk_stays_on_site_witness :
  exists new,
    requests (log (walk_links Scenario.server Scenario.titles Scenario.clock
                              Scenario.no_match Scenario.entry_url [] false
                              [Some "/a"; Some "/gone"; None; Some "b"]
                              Scenario.start))
    = new ++ requests (log Scenario.start)
    /\ forall u, In u new -> origin u = origin Scenario.entry_url.
Proof.
  apply walk_stays_on_site; [vm_compute; reflexivity|].
  intros h [E|[E|[E|[E|[]]]]] Hs; try discriminate E;
    injection E as <-; first [discriminate Hs | vm_compute; reflexivity].
Defined.

End SiteFacts.
